(** * swechain-mcp-server: the execution and aggregation layer

    A shallow embedding of [src/swechain-mcp-server.go]: the command runner
    with its retries, the paginated fetch, the record parsers, the auction
    aggregator and the tool handlers that validate their arguments.

    Conventions.
    - A Go [string] is a Rocq [string]: a sequence of bytes, [len] is
      [String.length].
    - A Go [int] is a [Z]; the platform is taken to be a 64-bit one.
    - A slice is a [list]; the [nil] slice and the empty slice are both [[]].
    - A function returning [(T, error)] returns a [result T].
    - [log.Printf] is not modelled. *)

From Stdlib Require Import String Ascii ZArith NArith List Lia Bool DecimalString.
Import ListNotations.
Local Open Scope string_scope.
Local Open Scope Z_scope.
Set Warnings "-register-all".

(** ** The parts of Go's [strings], [strconv] and [fmt] the server calls *)

Module Go.

Definition byte (c : ascii) : N := N_of_ascii c.

(** [strings.asciiSpace]: tab, line feed, vertical tab, form feed, carriage
    return and space. *)
Definition asciiSpace (c : ascii) : bool :=
  match byte c with
  | 9 | 10 | 11 | 12 | 13 | 32 => true
  | _ => false
  end%N.

(** The two-byte UTF-8 encodings of [unicode.IsSpace] runes: U+0085 and
    U+00A0. *)
Definition space2 (a b : ascii) : bool :=
  ((byte a =? 194) && ((byte b =? 133) || (byte b =? 160)))%N.

(** The three-byte ones: U+1680, U+2000 to U+200A, U+2028, U+2029, U+202F,
    U+205F and U+3000. *)
Definition space3 (a b c : ascii) : bool :=
  (((byte a =? 225) && (byte b =? 154) && (byte c =? 128))
   || ((byte a =? 226) && (byte b =? 128)
       && (((128 <=? byte c) && (byte c <=? 138))
           || (byte c =? 168) || (byte c =? 169) || (byte c =? 175)))
   || ((byte a =? 226) && (byte b =? 129) && (byte c =? 159))
   || ((byte a =? 227) && (byte b =? 128) && (byte c =? 128)))%N.

(** [strings.TrimLeftFunc(s, unicode.IsSpace)]: drop white-space runes from
    the front, one encoded rune at a time. *)
Fixpoint trimLeft (s : string) : string :=
  match s with
  | String a r1 =>
      if asciiSpace a then trimLeft r1
      else match r1 with
           | String b r2 =>
               if space2 a b then trimLeft r2
               else match r2 with
                    | String c r3 => if space3 a b c then trimLeft r3 else s
                    | EmptyString => s
                    end
           | EmptyString => s
           end
  | EmptyString => s
  end.

Fixpoint rev (s : string) : string :=
  match s with
  | EmptyString => EmptyString
  | String c r => rev r ++ String c EmptyString
  end.

(** The same from the back, on the reversed string: its first byte is the
    last byte of the rune that ends the original. *)
Fixpoint trimLeftRev (s : string) : string :=
  match s with
  | String c r1 =>
      if asciiSpace c then trimLeftRev r1
      else match r1 with
           | String b r2 =>
               if space2 b c then trimLeftRev r2
               else match r2 with
                    | String a r3 => if space3 a b c then trimLeftRev r3 else s
                    | EmptyString => s
                    end
           | EmptyString => s
           end
  | EmptyString => s
  end.

Definition trimRight (s : string) : string := rev (trimLeftRev (rev s)).

(** [strings.TrimSpace]. *)
Definition TrimSpace (s : string) : string := trimRight (trimLeft s).

(** [strings.HasPrefix]:
    [len(s) >= len(prefix) && s[:len(prefix)] == prefix]. *)
Definition HasPrefix (s prefix : string) : bool :=
  (String.length prefix <=? String.length s)%nat
  && String.eqb (substring 0 (String.length prefix) s) prefix.

Definition lowerByte (c : ascii) : ascii :=
  if ((65 <=? byte c) && (byte c <=? 90))%N
  then ascii_of_N (byte c + 32) else c.

(** [strings.ToLower], on the ASCII letters. Go also lower-cases the letters
    beyond ASCII; none of them becomes a letter of the words [all] and [open],
    the only ones the server compares a lower-cased text with. *)
Fixpoint ToLower (s : string) : string :=
  match s with
  | EmptyString => EmptyString
  | String c r => String (lowerByte c) (ToLower r)
  end.

(** [strconv.Itoa], and the verb [%d] of [fmt.Sprintf]. *)
Definition Itoa (n : Z) : string := NilZero.string_of_int (Z.to_int n).

Inductive NumError : Set := ErrSyntax | ErrRange.

Definition isDigit (c : ascii) : bool :=
  ((48 <=? byte c) && (byte c <=? 57))%N.

Definition digit (c : ascii) : Z := Z.of_N (byte c) - 48.

(** The loop of the fast path of [strconv.Atoi]. *)
Fixpoint atoiDigits (s : string) (n : Z) : option Z :=
  match s with
  | EmptyString => Some n
  | String ch r =>
      if isDigit ch then atoiDigits r (n * 10 + digit ch) else None
  end.

Definition maxUint64 : Z := 2 ^ 64 - 1.

(** The loop of [strconv.ParseUint] in base 10: a byte is checked to be a
    digit before the overflow tests, and an overflow ends the scan. *)
Fixpoint parseUintLoop (s : string) (n : Z) : Z * option NumError :=
  match s with
  | EmptyString => (n, None)
  | String c r =>
      if isDigit c then
        if maxUint64 / 10 + 1 <=? n then (maxUint64, Some ErrRange)
        else
          let n1 := n * 10 + digit c in
          if maxUint64 <? n1 then (maxUint64, Some ErrRange)
          else parseUintLoop r n1
      else (0, Some ErrSyntax)
  end.

Definition ParseUint (s : string) : Z * option NumError :=
  match s with
  | EmptyString => (0, Some ErrSyntax)
  | _ => parseUintLoop s 0
  end.

Definition isSign (c : ascii) : bool :=
  ((byte c =? 43) || (byte c =? 45))%N.

Definition isMinus (c : ascii) : bool := (byte c =? 45)%N.

(** [strconv.ParseInt(s, 10, 0)]. *)
Definition ParseInt (s : string) : Z * option NumError :=
  match s with
  | EmptyString => (0, Some ErrSyntax)
  | String c r =>
      let neg := isMinus c in
      let s' := if isSign c then r else s in
      match ParseUint s' with
      | (_, Some ErrSyntax) => (0, Some ErrSyntax)
      | (un, _) =>
          let cutoff := 2 ^ 63 in
          if negb neg && (cutoff <=? un) then (cutoff - 1, Some ErrRange)
          else if neg && (cutoff <? un) then (- cutoff, Some ErrRange)
          else (if neg then - un else un, None)
      end
  end.

(** [strconv.Atoi]: the value and the error; a text of 1 to 18 bytes takes
    the fast path, any other goes through [ParseInt]. *)
Definition Atoi (s : string) : Z * option NumError :=
  match s with
  | String c r =>
      if (String.length s <? 19)%nat then
        let s' := if isSign c then r else s in
        if isSign c && (String.length s' <? 1)%nat then (0, Some ErrSyntax)
        else match atoiDigits s' 0 with
             | None => (0, Some ErrSyntax)
             | Some n => (if isMinus c then - n else n, None)
             end
      else ParseInt s
  | EmptyString => ParseInt s
  end.

End Go.

(** ** Address validation *)

Definition isValidCosmosAddress (addr : string) : bool :=
  let addr := Go.TrimSpace addr in
  Go.HasPrefix addr "cosmos1"
  && (39 <=? String.length addr)%nat && (String.length addr <=? 45)%nat.

(** ** Decoded JSON

    What [json.Unmarshal] stores in an [interface{}]. A number is a [float64];
    the server only ever prints one with [%v], and [JNumber] carries that
    text. An object is a Go map: the list holds its entries, one per key. *)

Inductive value : Type :=
| JNull
| JBool (b : bool)
| JNumber (shown : string)
| JString (s : string)
| JArray (elems : list value)
| JObject (fields : list (string * value)).

(** [map[string]interface{}]. *)
Definition object : Type := list (string * value).

(** [m[key]]: [JNull] stands for the [nil] interface a missing key (or a
    [nil] map) yields. *)
Fixpoint index (m : object) (key : string) : value :=
  match m with
  | [] => JNull
  | (k, v) :: m' => if String.eqb k key then v else index m' key
  end.

(** The type assertions [v.(string)], [v.([]interface{})] and
    [v.(map[string]interface{})]. *)
Definition asString (v : value) : option string :=
  match v with JString s => Some s | _ => None end.

Definition asArray (v : value) : option (list value) :=
  match v with JArray l => Some l | _ => None end.

Definition asObject (v : value) : option object :=
  match v with JObject m => Some m | _ => None end.

Fixpoint join (sep : string) (l : list string) : string :=
  match l with
  | [] => ""
  | [x] => x
  | x :: l' => x ++ sep ++ join sep l'
  end.

Fixpoint insertByKey (e : string * string) (l : list (string * string))
  : list (string * string) :=
  match l with
  | [] => [e]
  | e' :: l' =>
      if String.leb (fst e) (fst e') then e :: l else e' :: insertByKey e l'
  end.

Definition sortByKey (l : list (string * string)) : list (string * string) :=
  fold_right insertByKey [] l.

(** [fmt.Sprintf("%v", v)]: a map is printed with its keys in order. *)
Fixpoint Sprint (v : value) : string :=
  match v with
  | JNull => "<nil>"
  | JBool b => if b then "true" else "false"
  | JNumber shown => shown
  | JString s => s
  | JArray l => "[" ++ join " " (map Sprint l) ++ "]"
  | JObject m =>
      "map["
      ++ join " " (map (fun e => fst e ++ ":" ++ snd e)
                     (sortByKey (map (fun '(k, x) => (k, Sprint x)) m)))
      ++ "]"
  end.

(** ** Core data structures *)

Record Key : Type := { Key_Name : string; Key_Address : string }.

Record Auction : Type := {
  Auction_ID : Z;
  Auction_Issue : string;
  Auction_Description : string;
  Auction_Status : string;
  Auction_Winner : string;
  Auction_Creator : string }.

Record Bid : Type := {
  Bid_AuctionID : Z;
  Bid_Amount : string;
  Bid_Description : string;
  Bid_Creator : string;
  Bid_Bidder : string }.

Record Balance : Type := { Balance_Denom : string; Balance_Amount : string }.

(** The [Balance] of a [DenomOwner] is a struct of its own with the same two
    fields. *)
Record DenomOwner : Type := {
  DenomOwner_Address : string;
  DenomOwner_Balance : Balance }.

Record BidDetail : Type := {
  BidDetail_Bidder : string;
  BidDetail_Amount : string;
  BidDetail_Description : string }.

Record AuctionDetail : Type := {
  AuctionDetail_AuctionID : Z;
  AuctionDetail_Issue : string;
  AuctionDetail_Creator : string;
  AuctionDetail_Description : string;
  AuctionDetail_Status : string;
  AuctionDetail_Winner : string;
  AuctionDetail_CurrentBidAmount : string;
  AuctionDetail_Bids : list BidDetail }.

Record ParticipantDetail : Type := {
  ParticipantDetail_Name : string;
  ParticipantDetail_Address : string;
  ParticipantDetail_Balance : string }.

(** The responses, with the fields of [Details] next to [Summary]. *)
Record AuctionSummaryResponse : Type := {
  AuctionSummary_Summary : string;
  AuctionSummary_Auctions : list AuctionDetail;
  AuctionSummary_Participants : list ParticipantDetail }.

Record BalanceResponse : Type := {
  BalanceResponse_Summary : string;
  BalanceResponse_Address : string;
  BalanceResponse_Balances : list Balance }.

(** ** Record parsers *)

Definition parseAuction (raw : object) : Auction :=
  let idStr := Sprint (index raw "id") in
  let id := fst (Go.Atoi idStr) in
  {| Auction_ID := id;
     Auction_Issue := Sprint (index raw "issue");
     Auction_Description := Sprint (index raw "description");
     Auction_Status := Sprint (index raw "status");
     Auction_Winner := Sprint (index raw "winner");
     Auction_Creator := Sprint (index raw "creator") |}.

Fixpoint parseAuctionsFrom (auctions : list Auction) (rawData : list object)
  : list Auction :=
  match rawData with
  | [] => auctions
  | raw :: rest => parseAuctionsFrom (auctions ++ [parseAuction raw]) rest
  end.

Definition parseAuctions (rawData : list object) : list Auction :=
  parseAuctionsFrom [] rawData.

Definition parseBid (raw : object) : Bid :=
  let auctionIDStr := Sprint (index raw "auctionId") in
  let auctionID := fst (Go.Atoi auctionIDStr) in
  {| Bid_AuctionID := auctionID;
     Bid_Amount := Sprint (index raw "amount");
     Bid_Description := Sprint (index raw "description");
     Bid_Creator := Sprint (index raw "creator");
     Bid_Bidder := Sprint (index raw "bidder") |}.

Fixpoint parseBidsFrom (bids : list Bid) (rawData : list object) : list Bid :=
  match rawData with
  | [] => bids
  | raw :: rest => parseBidsFrom (bids ++ [parseBid raw]) rest
  end.

Definition parseBids (rawData : list object) : list Bid :=
  parseBidsFrom [] rawData.



(** ** Aggregator *)

Definition extractNameFromAddress (address : string) : string :=
  if (12 <=? String.length address)%nat then substring 7 5 address
  else address.

(** The inner loop of [buildAuctionSummaryResponse]: one pass over the bids
    for the auction [auctionID]. *)
Fixpoint scanBids (auctionID : Z) (bids : list Bid)
    (auctionBids : list BidDetail) (currentBidAmount : string)
  : list BidDetail * string :=
  match bids with
  | [] => (auctionBids, currentBidAmount)
  | bid :: rest =>
      if Bid_AuctionID bid =? auctionID then
        scanBids auctionID rest
          (auctionBids ++ [{| BidDetail_Bidder := Bid_Bidder bid;
                              BidDetail_Amount := Bid_Amount bid;
                              BidDetail_Description := Bid_Description bid |}])
          (Bid_Amount bid)
      else scanBids auctionID rest auctionBids currentBidAmount
  end.

Definition auctionDetail (auction : Auction) (bids : list Bid) : AuctionDetail :=
  let '(auctionBids, currentBidAmount) :=
    scanBids (Auction_ID auction) bids [] "0token" in
  {| AuctionDetail_AuctionID := Auction_ID auction;
     AuctionDetail_Issue := Auction_Issue auction;
     AuctionDetail_Creator := Auction_Creator auction;
     AuctionDetail_Description := Auction_Description auction;
     AuctionDetail_Status := Auction_Status auction;
     AuctionDetail_Winner := Auction_Winner auction;
     AuctionDetail_CurrentBidAmount := currentBidAmount;
     AuctionDetail_Bids := auctionBids |}.

Fixpoint auctionDetailsFrom (auctionDetails : list AuctionDetail)
    (auctions : list Auction) (bids : list Bid) : list AuctionDetail :=
  match auctions with
  | [] => auctionDetails
  | auction :: rest =>
      auctionDetailsFrom (auctionDetails ++ [auctionDetail auction bids])
        rest bids
  end.

Definition participant (owner : DenomOwner) : ParticipantDetail :=
  {| ParticipantDetail_Name := extractNameFromAddress (DenomOwner_Address owner);
     ParticipantDetail_Address := DenomOwner_Address owner;
     ParticipantDetail_Balance :=
       Balance_Amount (DenomOwner_Balance owner) ++ " "
       ++ Balance_Denom (DenomOwner_Balance owner) |}.

Fixpoint participantsFrom (participants : list ParticipantDetail)
    (owners : list DenomOwner) : list ParticipantDetail :=
  match owners with
  | [] => participants
  | owner :: rest => participantsFrom (participants ++ [participant owner]) rest
  end.

Fixpoint countWithBids (bidCount : Z) (auctionDetails : list AuctionDetail) : Z :=
  match auctionDetails with
  | [] => bidCount
  | detail :: rest =>
      if (0 <? List.length (AuctionDetail_Bids detail))%nat
      then countWithBids (bidCount + 1) rest
      else countWithBids bidCount rest
  end.

Definition len {A : Type} (l : list A) : Z := Z.of_nat (List.length l).

Definition buildAuctionSummaryResponse (auctions : list Auction)
    (bids : list Bid) (owners : list DenomOwner) (auctionType : string)
  : AuctionSummaryResponse :=
  let auctionDetails := auctionDetailsFrom [] auctions bids in
  let participants := participantsFrom [] owners in
  let summary :=
    if String.eqb auctionType "open" then
      let bidCount := countWithBids 0 auctionDetails in
      if len auctions =? 0 then "No open auctions found."
      else "There are " ++ Go.Itoa (len auctions) ++ " open auctions ("
           ++ Go.Itoa bidCount ++ " with bids, "
           ++ Go.Itoa (len auctions - bidCount) ++ " without bids)."
    else "There are " ++ Go.Itoa (len auctions) ++ " total auctions with "
         ++ Go.Itoa (len bids) ++ " total bids." in
  {| AuctionSummary_Summary := summary;
     AuctionSummary_Auctions := auctionDetails;
     AuctionSummary_Participants := participants |}.

(** The join, as the specification words it: the bids of an auction are
    those with its identifier, the current bid amount is the amount of the
    last of them. *)
Definition matchingBids (auction : Auction) (bids : list Bid) : list Bid :=
  filter (fun b => Bid_AuctionID b =? Auction_ID auction) bids.

Definition bidDetailOf (bid : Bid) : BidDetail :=
  {| BidDetail_Bidder := Bid_Bidder bid;
     BidDetail_Amount := Bid_Amount bid;
     BidDetail_Description := Bid_Description bid |}.

Definition joinedDetail (auction : Auction) (bids : list Bid) : AuctionDetail :=
  {| AuctionDetail_AuctionID := Auction_ID auction;
     AuctionDetail_Issue := Auction_Issue auction;
     AuctionDetail_Creator := Auction_Creator auction;
     AuctionDetail_Description := Auction_Description auction;
     AuctionDetail_Status := Auction_Status auction;
     AuctionDetail_Winner := Auction_Winner auction;
     AuctionDetail_CurrentBidAmount :=
       last (map Bid_Amount (matchingBids auction bids)) "0token";
     AuctionDetail_Bids := map bidDetailOf (matchingBids auction bids) |}.

(** An auction has a bid when some bid carries its identifier. *)
Definition hasBid (bids : list Bid) (auction : Auction) : bool :=
  existsb (fun b => Bid_AuctionID b =? Auction_ID auction) bids.

(** ** Running the external executable

    The server acts on the world by starting processes and by sleeping. A
    run of the server is followed through the trace of these events, oldest
    first; the outcome of a process is whatever the world makes of it given
    all that happened before. *)

Inductive result (A : Type) : Type :=
| Ok (a : A)
| Err (e : string).
Arguments Ok {A} a.
Arguments Err {A} e.

(** What [cmd.Run] leaves behind: the captured output and, on failure,
    the text of the error (a non-zero exit, a timeout). *)
Inductive RunResult : Type :=
| Exited (stdout stderr : string)
| Failed (err stdout stderr : string).

Inductive Event : Type :=
| Started (name : string) (arg : list string)
| Slept (d : Z).

Definition Trace : Type := list Event.
Bind Scope list_scope with Trace.

Definition M (A : Type) : Type := Trace -> A * Trace.

Definition ret {A : Type} (a : A) : M A := fun tr => (a, tr).

Definition bind {A B : Type} (m : M A) (k : A -> M B) : M B :=
  fun tr => let '(a, tr') := m tr in k a tr'.

Notation "x <- m ;; k" := (bind m (fun x => k))
  (at level 61, m at next level, right associativity).
Notation "m ;;; k" := (bind m (fun _ => k))
  (at level 61, right associativity).

(** [time.Duration] counts nanoseconds. *)
Definition Millisecond : Z := 1000000.
Definition Second : Z := 1000 * Millisecond.

Definition pageLimit : Z := 50.
Definition maxPages : Z := 10.
Definition requestDelay : Z := 500 * Millisecond.
Definition maxRetries : Z := 3.

Definition Sleep (d : Z) : M unit := fun tr => (tt, (tr ++ [Slept d])%list).

Definition nl : string := String "010" "".

(** [fmt.Errorf("command failed: %v\nSTDOUT: %s\nSTDERR: %s", ...)]. *)
Definition failure (err stdout stderr : string) : string :=
  "command failed: " ++ err ++ nl ++ "STDOUT: " ++ stdout ++ nl ++ "STDERR: "
  ++ stderr.

Record GetBalanceParams : Type := { GetBalance_Address : string }.

Record QueryBidsForAuctionParams : Type := { QueryBids_AuctionId : string }.

Record CreateBidParams : Type := {
  CreateBid_AuctionId : string;
  CreateBid_Bidder : string;
  CreateBid_Amount : string;
  CreateBid_Description : string;
  CreateBid_From : string }.

(** The single text content of a tool result: a plain text, or the text
    [json.MarshalIndent] renders a response to. *)
Inductive Content (R : Type) : Type :=
| Text (text : string)
| Marshalled (response : R).
Arguments Text {R} text.
Arguments Marshalled {R} response.

Record BidsResponse : Type := {
  BidsResponse_Summary : string;
  BidsResponse_Bids : list Bid }.

Section Server.

(** The world: the outcome of the process started after the events [tr]. *)
Variable exec : Trace -> string -> list string -> RunResult.

(** [json.Unmarshal] into an [interface{}]; [Err] carries the text of its
    error. *)
Variable Unmarshal : string -> result value.

(** [json.Unmarshal] into a [[]Key]; a text that is not JSON is an error
    for this decoder as for the one above, a type mismatch for this one
    only. *)
Variable UnmarshalKeys : string -> result (list Key).

(** The path [exec.LookPath] found at start-up. *)
Variable swechaindCmd : string.

Definition Run (name : string) (arg : list string) : M RunResult :=
  fun tr => (exec tr name arg, (tr ++ [Started name arg])%list).

(** The loop of [runCommand] from attempt [i] on, [todo] attempts being
    left: [todo = maxRetries - i]. *)
Fixpoint attempts (name : string) (arg : list string) (todo : nat) (i : Z)
    (lastErr : option string) : M (result string) :=
  match todo with
  | O => ret (match lastErr with Some e => Err e | None => Ok "" end)
  | S todo' =>
      r <- Run name arg ;;
      match r with
      | Exited stdout _ => ret (Ok (Go.TrimSpace stdout))
      | Failed err stdout stderr =>
          let lastErr := failure err stdout stderr in
          (if i <? maxRetries - 1 then Sleep ((i + 1) * Second) else ret tt) ;;;
          attempts name arg todo' (i + 1) (Some lastErr)
      end
  end.

Definition runCommand (name : string) (arg : list string) : M (result string) :=
  attempts name arg (Z.to_nat maxRetries) 0 None.

(** [json.Unmarshal] into a [map[string]interface{}]: the JSON [null] leaves
    the map [nil], anything but an object is a type error. *)
Definition unmarshalObject (data : string) : result object :=
  match Unmarshal data with
  | Err e => Err e
  | Ok (JObject m) => Ok m
  | Ok JNull => Ok []
  | Ok v =>
      Err ("json: cannot unmarshal "
           ++ match v with
              | JBool _ => "bool"
              | JNumber _ => "number"
              | JString _ => "string"
              | _ => "array"
              end
           ++ " into Go value of type map[string]interface {}")
  end.

Definition getAddressForKey (keyName : string) : M (result string) :=
  r <- runCommand swechaindCmd
         ["keys"; "show"; keyName; "--keyring-backend"; "test";
          "--output"; "json"] ;;
  match r with
  | Err err => ret (Err ("failed to get key info: " ++ err))
  | Ok output =>
      match unmarshalObject output with
      | Err err => ret (Err ("failed to parse key data: " ++ err))
      | Ok keyData =>
          match asString (index keyData "address") with
          | None => ret (Err "address not found in key data")
          | Some address =>
              if negb (isValidCosmosAddress address)
              then ret (Err ("invalid cosmos address format: " ++ address))
              else ret (Ok address)
          end
      end
  end.

Fixpoint balancesFrom (balances : list Balance) (rawBalances : list value)
  : list Balance :=
  match rawBalances with
  | [] => balances
  | raw :: rest =>
      match asObject raw with
      | None => balancesFrom balances rest
      | Some rawMap =>
          balancesFrom
            (balances ++ [{| Balance_Denom := Sprint (index rawMap "denom");
                             Balance_Amount := Sprint (index rawMap "amount") |}])
            rest
      end
  end.

Definition getBalanceForAddress (address : string) : M (result (list Balance)) :=
  r <- runCommand swechaindCmd
         ["query"; "bank"; "balances"; address; "--keyring-backend"; "test";
          "--output"; "json"] ;;
  match r with
  | Err err => ret (Err ("failed to query balance: " ++ err))
  | Ok output =>
      match unmarshalObject output with
      | Err err => ret (Err ("failed to parse balance data: " ++ err))
      | Ok responseData =>
          match asArray (index responseData "balances") with
          | None => ret (Ok [])
          | Some rawBalances => ret (Ok (balancesFrom [] rawBalances))
          end
      end
  end.

Definition getKeys : M (list Key) :=
  r <- runCommand swechaindCmd
         ["keys"; "list"; "--keyring-backend"; "test"; "--output"; "json"] ;;
  match r with
  | Err _ => ret []
  | Ok output =>
      match UnmarshalKeys output with
      | Err _ => ret []
      | Ok keys => ret keys
      end
  end.

(** The records of one page: the elements that are objects. *)
Fixpoint appendObjects (allResults : list object) (results : list value)
  : list object :=
  match results with
  | [] => allResults
  | result :: rest =>
      match asObject result with
      | Some resultMap => appendObjects (allResults ++ [resultMap]) rest
      | None => appendObjects allResults rest
      end
  end.

(** The [args] of the query for the page at [offset]. *)
Definition pageArgs (module query : string) (offset : Z) : list string :=
  ["query"; module; query;
   "--keyring-backend"; "test";
   "--output"; "json";
   "--page-offset"; Go.Itoa offset;
   "--page-limit"; Go.Itoa pageLimit].

(** The loop of [fetchPaginatedData]; [fuel] bounds the number of
    iterations. *)
Fixpoint fetchPages (module query dataKey : string) (fuel : nat) (offset : Z)
    (allResults : list object) : M (list object) :=
  match fuel with
  | O => ret allResults
  | S fuel' =>
      if offset / pageLimit <? maxPages then
        r <- runCommand swechaindCmd (pageArgs module query offset) ;;
        match r with
        | Err _ => ret allResults
        | Ok output =>
            match unmarshalObject output with
            | Err _ => ret allResults
            | Ok responseData =>
                match asArray (index responseData dataKey) with
                | None => ret allResults
                | Some results =>
                    if len results =? 0 then ret allResults
                    else
                      Sleep requestDelay ;;;
                      fetchPages module query dataKey fuel'
                        (offset + pageLimit) (appendObjects allResults results)
                end
            end
        end
      else ret allResults
  end.

(** The offset grows by [pageLimit] from 0, so [maxPages] iterations are all
    the loop can make ([fetchPages_fuel] below). *)
Definition fetchPaginatedData (module query dataKey : string) : M (list object) :=
  fetchPages module query dataKey (Z.to_nat maxPages) 0 [].

Fixpoint denomOwnersFrom (denomOwners : list DenomOwner)
    (rawDenomOwners : list value) : list DenomOwner :=
  match rawDenomOwners with
  | [] => denomOwners
  | raw :: rest =>
      match asObject raw with
      | None => denomOwnersFrom denomOwners rest
      | Some rawMap =>
          let address := Sprint (index rawMap "address") in
          match asObject (index rawMap "balance") with
          | None => denomOwnersFrom denomOwners rest
          | Some balanceRaw =>
              denomOwnersFrom
                (denomOwners
                 ++ [{| DenomOwner_Address := address;
                        DenomOwner_Balance :=
                          {| Balance_Denom := Sprint (index balanceRaw "denom");
                             Balance_Amount := Sprint (index balanceRaw "amount") |}
                     |}])
                rest
          end
      end
  end.

Definition fetchDenomOwners : M (list DenomOwner) :=
  r <- runCommand swechaindCmd
         ["query"; "bank"; "denom-owners"; "token"; "--keyring-backend"; "test";
          "--output"; "json"] ;;
  match r with
  | Err _ => ret []
  | Ok output =>
      match unmarshalObject output with
      | Err _ => ret []
      | Ok responseData =>
          match asArray (index responseData "denom_owners") with
          | None => ret []
          | Some rawDenomOwners => ret (denomOwnersFrom [] rawDenomOwners)
          end
      end
  end.

(** ** Tool handlers *)

Definition getBalanceHandler (params : GetBalanceParams)
  : M (Content BalanceResponse) :=
  let address := Go.TrimSpace (GetBalance_Address params) in
  if String.eqb address "" then
    ret (Text "Error: address parameter is required and cannot be empty.")
  else if negb (isValidCosmosAddress address) then
    ret (Text "Error: address must be a valid cosmos address (cosmos1...).")
  else
    r <- getBalanceForAddress address ;;
    match r with
    | Err err =>
        ret (Text ("Error getting balance for address " ++ address ++ ": " ++ err))
    | Ok balances =>
        let '(totalBalance, denom) :=
          match balances with
          | b :: _ => (Balance_Amount b, Balance_Denom b)
          | [] => ("0", "token")
          end in
        ret (Marshalled
               {| BalanceResponse_Summary :=
                    "Address " ++ address ++ " has " ++ totalBalance ++ " " ++ denom;
                  BalanceResponse_Address := address;
                  BalanceResponse_Balances := balances |})
    end.

Fixpoint filterBids (auctionIdInt : Z) (filteredBids bids : list Bid) : list Bid :=
  match bids with
  | [] => filteredBids
  | bid :: rest =>
      if Bid_AuctionID bid =? auctionIdInt
      then filterBids auctionIdInt (filteredBids ++ [bid]) rest
      else filterBids auctionIdInt filteredBids rest
  end.

Definition bidsResponse (auctionId : string) (bids : list Bid)
  : Content BidsResponse :=
  let summary :=
    if String.eqb (Go.ToLower auctionId) "all" then
      "Found " ++ Go.Itoa (len bids) ++ " total bids across all auctions"
    else
      "Found " ++ Go.Itoa (len bids) ++ " bids for auction " ++ auctionId in
  Marshalled {| BidsResponse_Summary := summary; BidsResponse_Bids := bids |}.

Definition queryBidsForAuctionHandler (params : QueryBidsForAuctionParams)
  : M (Content BidsResponse) :=
  let auctionId := Go.TrimSpace (QueryBids_AuctionId params) in
  if String.eqb auctionId "" then
    ret (Text "Error: auctionId parameter is required. Use specific auction ID or 'all' for all bids.")
  else
    rawBids <- fetchPaginatedData "issuemarket" "list-bid" "Bid" ;;
    let bids := parseBids rawBids in
    if negb (String.eqb (Go.ToLower auctionId) "all") then
      match Go.Atoi auctionId with
      | (_, Some _) =>
          ret (Text ("Error: invalid auctionId '" ++ auctionId
                     ++ "'. Must be a number or 'all'."))
      | (auctionIdInt, None) =>
          ret (bidsResponse auctionId (filterBids auctionIdInt [] bids))
      end
    else ret (bidsResponse auctionId bids).

(** [createBidHandler] answers with a plain text in every case; the result
    is that text. *)
Definition createBidHandler (params : CreateBidParams) : M string :=
  let auctionId := Go.TrimSpace (CreateBid_AuctionId params) in
  let bidder := Go.TrimSpace (CreateBid_Bidder params) in
  let from := Go.TrimSpace (CreateBid_From params) in
  if String.eqb auctionId "" then
    ret "Error: 'auctionId' parameter is required."
  else if String.eqb bidder "" then
    ret "Error: 'bidder' parameter is required."
  else if String.eqb from "" then
    ret "Error: 'from' parameter is required."
  else if negb (isValidCosmosAddress bidder) then
    ret "Error: 'bidder' must be a valid cosmos address (cosmos1...)."
  else if negb (isValidCosmosAddress from) then
    ret "Error: 'from' must be a valid cosmos address (cosmos1...)."
  else
    match snd (Go.Atoi auctionId) with
    | Some _ => ret "Error: 'auctionId' must be a valid number."
    | None =>
        let amount :=
          let amount := Go.TrimSpace (CreateBid_Amount params) in
          if String.eqb amount "" then "100token" else amount in
        let description :=
          let description := Go.TrimSpace (CreateBid_Description params) in
          if String.eqb description "" then "Bid for auction " ++ auctionId
          else description in
        r <- runCommand swechaindCmd
               ["tx"; "issuemarket"; "create-bid";
                auctionId; bidder; amount; description;
                "--from"; from;
                "--keyring-backend"; "test";
                "--chain-id"; "swechain";
                "--fees"; "200token";
                "--yes";
                "--output"; "json"] ;;
        match r with
        | Err err =>
            ret ("Failed to create bid: " ++ err ++ nl ++ "Output: " ++ "")
        | Ok output => ret output
        end
    end.

End Server.

(** ** The other tool handlers *)

Record GetAddressForKeyParams : Type := { GetAddressForKey_KeyName : string }.

Record OperationParams : Type := { Operation : string }.

Record OpenAuctionParams : Type := {
  OpenAuction_Issue : string;
  OpenAuction_Description : string;
  OpenAuction_Status : string;
  OpenAuction_Winner : string;
  OpenAuction_From : string }.

Record PayParams : Type := {
  Pay_From : string;
  Pay_To : string;
  Pay_Amount : string }.

Record CloseAuctionParams : Type := {
  CloseAuction_AuctionId : string;
  CloseAuction_Status : string;
  CloseAuction_Issue : string;
  CloseAuction_Description : string;
  CloseAuction_Winner : string;
  CloseAuction_From : string }.

Record AddressResponse : Type := {
  AddressResponse_Summary : string;
  AddressResponse_KeyName : string;
  AddressResponse_Address : string }.

Record KeySummaryResponse : Type := {
  KeySummary_Summary : string;
  KeySummary_Keys : list Key }.

Record BlockchainStatusResponse : Type := {
  Status_Summary : string;
  Status_TotalAuctions : Z;
  Status_OpenAuctions : Z;
  Status_TotalBids : Z;
  Status_TotalKeys : Z;
  Status_TokenHolders : Z }.

(** [strings.ToLower(strings.TrimSpace(status)) == "open"]. *)
Definition isOpen (status : string) : bool :=
  String.eqb (Go.ToLower (Go.TrimSpace status)) "open".

Fixpoint openAuctionsFrom (openAuctions auctions : list Auction) : list Auction :=
  match auctions with
  | [] => openAuctions
  | auction :: rest =>
      if isOpen (Auction_Status auction)
      then openAuctionsFrom (openAuctions ++ [auction]) rest
      else openAuctionsFrom openAuctions rest
  end.

Fixpoint countOpen (openCount : Z) (auctions : list Auction) : Z :=
  match auctions with
  | [] => openCount
  | auction :: rest =>
      if isOpen (Auction_Status auction)
      then countOpen (openCount + 1) rest
      else countOpen openCount rest
  end.

(** The fixed flags of a transaction. *)
Definition txFlags (from : string) : list string :=
  ["--from"; from;
   "--keyring-backend"; "test";
   "--chain-id"; "swechain";
   "--fees"; "200token";
   "--yes";
   "--output"; "json"].

Section Handlers.

Variable exec : Trace -> string -> list string -> RunResult.
Variable Unmarshal : string -> result value.
Variable UnmarshalKeys : string -> result (list Key).
Variable swechaindCmd : string.

Definition getAddressForKeyHandler (params : GetAddressForKeyParams)
  : M (Content AddressResponse) :=
  let keyName := Go.TrimSpace (GetAddressForKey_KeyName params) in
  if String.eqb keyName "" then
    ret (Text "Error: keyName parameter is required and cannot be empty.")
  else
    r <- getAddressForKey exec Unmarshal swechaindCmd keyName ;;
    match r with
    | Err err =>
        ret (Text ("Error getting address for key " ++ keyName ++ ": " ++ err))
    | Ok address =>
        ret (Marshalled
               {| AddressResponse_Summary :=
                    "Address for key '" ++ keyName ++ "': " ++ address;
                  AddressResponse_KeyName := keyName;
                  AddressResponse_Address := address |})
    end.

Definition queryOpenAuctionsHandler (params : OperationParams)
  : M (Content AuctionSummaryResponse) :=
  rawAuctions <- fetchPaginatedData exec Unmarshal swechaindCmd
                   "issuemarket" "list-auction" "Auction" ;;
  rawBids <- fetchPaginatedData exec Unmarshal swechaindCmd
               "issuemarket" "list-bid" "Bid" ;;
  owners <- fetchDenomOwners exec Unmarshal swechaindCmd ;;
  let auctions := parseAuctions rawAuctions in
  let bids := parseBids rawBids in
  let openAuctions := openAuctionsFrom [] auctions in
  ret (Marshalled (buildAuctionSummaryResponse openAuctions bids owners "open")).

Definition queryAllAuctionsHandler (params : OperationParams)
  : M (Content AuctionSummaryResponse) :=
  rawAuctions <- fetchPaginatedData exec Unmarshal swechaindCmd
                   "issuemarket" "list-auction" "Auction" ;;
  rawBids <- fetchPaginatedData exec Unmarshal swechaindCmd
               "issuemarket" "list-bid" "Bid" ;;
  owners <- fetchDenomOwners exec Unmarshal swechaindCmd ;;
  let auctions := parseAuctions rawAuctions in
  let bids := parseBids rawBids in
  ret (Marshalled (buildAuctionSummaryResponse auctions bids owners "all")).

Definition getBlockchainStatusHandler (params : OperationParams)
  : M (Content BlockchainStatusResponse) :=
  rawAuctions <- fetchPaginatedData exec Unmarshal swechaindCmd
                   "issuemarket" "list-auction" "Auction" ;;
  rawBids <- fetchPaginatedData exec Unmarshal swechaindCmd
               "issuemarket" "list-bid" "Bid" ;;
  owners <- fetchDenomOwners exec Unmarshal swechaindCmd ;;
  keys <- getKeys exec UnmarshalKeys swechaindCmd ;;
  let auctions := parseAuctions rawAuctions in
  let bids := parseBids rawBids in
  let openCount := countOpen 0 auctions in
  ret (Marshalled
         {| Status_Summary :=
              "Blockchain has " ++ Go.Itoa (len auctions) ++ " total auctions ("
              ++ Go.Itoa openCount ++ " open), " ++ Go.Itoa (len bids)
              ++ " bids, " ++ Go.Itoa (len keys) ++ " keys, and "
              ++ Go.Itoa (len owners) ++ " token holders";
            Status_TotalAuctions := len auctions;
            Status_OpenAuctions := openCount;
            Status_TotalBids := len bids;
            Status_TotalKeys := len keys;
            Status_TokenHolders := len owners |}).

Definition getKeysHandler (params : OperationParams)
  : M (Content KeySummaryResponse) :=
  keys <- getKeys exec UnmarshalKeys swechaindCmd ;;
  ret (Marshalled
         {| KeySummary_Summary :=
              "Found " ++ Go.Itoa (len keys) ++ " keys in the keyring";
            KeySummary_Keys := keys |}).

(** The three handlers below answer with a plain text in every case, as
    [createBidHandler] does. *)
Definition openAuctionHandler (params : OpenAuctionParams) : M string :=
  let issue := Go.TrimSpace (OpenAuction_Issue params) in
  let description := Go.TrimSpace (OpenAuction_Description params) in
  let from := Go.TrimSpace (OpenAuction_From params) in
  if String.eqb issue "" then
    ret "Error: 'issue' parameter is required and cannot be empty."
  else if String.eqb description "" then
    ret "Error: 'description' parameter is required and cannot be empty."
  else if String.eqb from "" then
    ret "Error: 'from' parameter is required and cannot be empty."
  else if negb (isValidCosmosAddress from) then
    ret "Error: 'from' must be a valid cosmos address (cosmos1...)."
  else
    let status :=
      let status := Go.TrimSpace (OpenAuction_Status params) in
      if String.eqb status "" then "open" else status in
    let winner := Go.TrimSpace (OpenAuction_Winner params) in
    r <- runCommand exec swechaindCmd
           (["tx"; "issuemarket"; "create-auction";
             issue; description; status; winner] ++ txFlags from) ;;
    match r with
    | Err err =>
        ret ("Failed to create auction: " ++ err ++ nl ++ "Output: " ++ "")
    | Ok output => ret output
    end.

Definition payHandler (params : PayParams) : M string :=
  let from := Go.TrimSpace (Pay_From params) in
  let to := Go.TrimSpace (Pay_To params) in
  let amount := Go.TrimSpace (Pay_Amount params) in
  if String.eqb from "" || String.eqb to "" || String.eqb amount "" then
    ret "Error: 'from', 'to', and 'amount' parameters are all required."
  else if negb (isValidCosmosAddress from) then
    ret "Error: 'from' must be a valid cosmos address."
  else if negb (isValidCosmosAddress to) then
    ret "Error: 'to' must be a valid cosmos address."
  else
    r <- runCommand exec swechaindCmd
           (["tx"; "bank"; "send"; from; to; amount] ++ txFlags from) ;;
    match r with
    | Err err => ret ("Payment failed: " ++ err ++ nl ++ "Output: " ++ "")
    | Ok output => ret output
    end.

Definition closeAuctionHandler (params : CloseAuctionParams) : M string :=
  let auctionId := Go.TrimSpace (CloseAuction_AuctionId params) in
  let status := Go.TrimSpace (CloseAuction_Status params) in
  let from := Go.TrimSpace (CloseAuction_From params) in
  if String.eqb auctionId "" || String.eqb status "" || String.eqb from "" then
    ret "Error: 'auctionId', 'status', and 'from' parameters are required."
  else if negb (isValidCosmosAddress from) then
    ret "Error: 'from' must be a valid cosmos address."
  else
    match snd (Go.Atoi auctionId) with
    | Some _ => ret "Error: 'auctionId' must be a valid number."
    | None =>
        r <- runCommand exec swechaindCmd
               (["tx"; "issuemarket"; "update-auction";
                 auctionId;
                 Go.TrimSpace (CloseAuction_Issue params);
                 Go.TrimSpace (CloseAuction_Description params);
                 status;
                 Go.TrimSpace (CloseAuction_Winner params)] ++ txFlags from) ;;
        match r with
        | Err err =>
            ret ("Failed to close auction: " ++ err ++ nl ++ "Output: " ++ "")
        | Ok output => ret output
        end
    end.

End Handlers.

(** ** Notions the properties are stated with *)

(** The trace before attempt [j] (from 0) of a command whose earlier
    attempts all failed: each failed attempt is followed by a sleep of as
    many seconds as attempts were made. *)
Fixpoint retryTrace (name : string) (arg : list string) (tr : Trace) (j : nat)
  : Trace :=
  match j with
  | O => tr
  | S j' =>
      (retryTrace name arg tr j'
       ++ [Started name arg; Slept (Z.of_nat j * Second)])%list
  end.

(** The time slept in a trace. *)
Fixpoint slept (tr : Trace) : Z :=
  match tr with
  | [] => 0
  | Slept d :: tr' => d + slept tr'
  | Started _ _ :: tr' => slept tr'
  end.

Definition isStarted (e : Event) : bool :=
  match e with Started _ _ => true | Slept _ => false end.

(** The number of processes started in a trace. *)
Definition started (tr : Trace) : nat := List.length (filter isStarted tr).

Definition isObject (v : value) : bool :=
  match v with JObject _ => true | _ => false end.

Section Pages.

Variable exec : Trace -> string -> list string -> RunResult.
Variable Unmarshal : string -> result value.
Variable swechaindCmd : string.
Variables module query dataKey : string.

(** The page a query result holds: the array under [dataKey] when the
    command succeeded, its output decoded to an object and the array is there
    and not empty. *)
Definition pageOf (r : result string) : option (list value) :=
  match r with
  | Err _ => None
  | Ok output =>
      match unmarshalObject Unmarshal output with
      | Err _ => None
      | Ok responseData =>
          match asArray (index responseData dataKey) with
          | None => None
          | Some results => if len results =? 0 then None else Some results
          end
      end
  end.

(** A page fails when the command gave up or its output does not decode to
    an object. *)
Definition pageFails (r : result string) : Prop :=
  match r with
  | Err _ => True
  | Ok output => exists e, unmarshalObject Unmarshal output = Err e
  end.

(** [PagesFrom offset tr pages tr']: queried from [offset] on, in steps of
    [pageLimit] and with the delay after each page, the source yields the
    pages [pages] one after the other, which takes the trace from [tr] to
    [tr']. *)
Inductive PagesFrom : Z -> Trace -> list (list value) -> Trace -> Prop :=
| PagesNil (offset : Z) (tr : Trace) : PagesFrom offset tr [] tr
| PagesCons (offset : Z) (tr tr1 tr' : Trace) (r : result string)
    (results : list value) (pages : list (list value)) :
    runCommand exec swechaindCmd (pageArgs module query offset) tr = (r, tr1) ->
    pageOf r = Some results ->
    PagesFrom (offset + pageLimit) (tr1 ++ [Slept requestDelay])%list pages tr' ->
    PagesFrom offset tr (results :: pages) tr'.

(** The query at [offset] yields no page: it fails, or the array is absent
    or empty. *)
Definition Stops (offset : Z) (tr tr' : Trace) : Prop :=
  exists r,
    runCommand exec swechaindCmd (pageArgs module query offset) tr = (r, tr')
    /\ pageOf r = None.

End Pages.

(** The summary of [get-balance], from the first balance if there is one. *)
Definition balanceSummary (address : string) (first : option Balance) : string :=
  match first with
  | Some b =>
      "Address " ++ address ++ " has " ++ Balance_Amount b ++ " " ++ Balance_Denom b
  | None => "Address " ++ address ++ " has 0 token"
  end.

(** The events of running one command: starts of that command, and
    sleeps. *)
Definition runsOnly (name : string) (arg : list string) (events : Trace) : Prop :=
  Forall (fun e => e = Started name arg \/ exists d, e = Slept d) events.

(** The events of a paginated fetch: sleeps, and starts of the query for a
    page at one of the offsets 0, 50, ..., 450. *)
Definition pageEvents (swechaindCmd module query : string) (events : Trace)
  : Prop :=
  Forall (fun e =>
            (exists d, e = Slept d)
            \/ exists i, 0 <= i < maxPages
                 /\ e = Started swechaindCmd (pageArgs module query (pageLimit * i)))
    events.

(** Every process fails: the node is out of reach. *)
Definition unreachable (exec : Trace -> string -> list string -> RunResult)
  : Prop :=
  forall tr name arg, exists err out errout, exec tr name arg = Failed err out errout.

Definition isOpenDetail (detail : AuctionDetail) : bool :=
  isOpen (AuctionDetail_Status detail).

Definition balanceOf (rawMap : object) : Balance :=
  {| Balance_Denom := Sprint (index rawMap "denom");
     Balance_Amount := Sprint (index rawMap "amount") |}.

(** The elements of an array that are objects. *)
Fixpoint objectsOf (l : list value) : list object :=
  match l with
  | [] => []
  | JObject m :: l' => m :: objectsOf l'
  | _ :: l' => objectsOf l'
  end.

(** A text starts with no white-space rune. *)
Definition headClean (s : string) : Prop :=
  match s with
  | EmptyString => True
  | String a r1 =>
      Go.asciiSpace a = false
      /\ match r1 with
         | EmptyString => True
         | String b r2 =>
             Go.space2 a b = false
             /\ match r2 with
                | EmptyString => True
                | String c _ => Go.space3 a b c = false
                end
         end
  end.

(** The token holder of an element of [denom_owners], when the element
    and its balance are objects. *)
Definition ownerOf (raw : value) : option DenomOwner :=
  match asObject raw with
  | None => None
  | Some rawMap =>
      match asObject (index rawMap "balance") with
      | None => None
      | Some balanceRaw =>
          Some {| DenomOwner_Address := Sprint (index rawMap "address");
                  DenomOwner_Balance := balanceOf balanceRaw |}
      end
  end.

Fixpoint ownersOf (l : list value) : list DenomOwner :=
  match l with
  | [] => []
  | raw :: l' =>
      match ownerOf raw with
      | Some o => o :: ownersOf l'
      | None => ownersOf l'
      end
  end.

(** The record has no field [key]. *)
Definition missing (key : string) (raw : object) : Prop :=
  forall v, ~ In (key, v) raw.

(** ** Sample data *)

Definition address40 : string := "cosmos1abcdefghijklmnopqrstuvwxyz0123456".
Definition address38 : string := "cosmos1abcdefghijklmnopqrstuvwxyz01234".
Definition addressNoPrefix : string := "kosmos1abcdefghijklmnopqrstuvwxyz0123456".

Definition sampleAuction (id : Z) : Auction :=
  {| Auction_ID := id; Auction_Issue := "issue"; Auction_Description := "";
     Auction_Status := "open"; Auction_Winner := ""; Auction_Creator := address40 |}.

Definition sampleBid (auctionId : Z) (amount : string) : Bid :=
  {| Bid_AuctionID := auctionId; Bid_Amount := amount; Bid_Description := "";
     Bid_Creator := address40; Bid_Bidder := address40 |}.

(** The bids of the join example of the specification. *)
Definition joinBids : list Bid := [sampleBid 1 "5token"; sampleBid 1 "9token"].

Definition rawWithId (id : value) : object :=
  [("id", id); ("issue", JString "issue"); ("status", JString "open")].

(** JSON texts, with the quotation mark spelt by its code. *)
Definition quoted (s : string) : string := String "034" s ++ String "034" "".

(** [{"Bid":[{},...,{}]}] with [n] records. *)
Definition bidPage (n : nat) : string :=
  "{" ++ quoted "Bid" ++ ":[" ++ join "," (repeat "{}" n) ++ "]}".

(** [{"balances":[{"denom":"token","amount":"12"},{"denom":"stake","amount":"7"}]}] *)
Definition balancesText : string :=
  "{" ++ quoted "balances" ++ ":[{" ++ quoted "denom" ++ ":" ++ quoted "token"
  ++ "," ++ quoted "amount" ++ ":" ++ quoted "12" ++ "},{" ++ quoted "denom"
  ++ ":" ++ quoted "stake" ++ "," ++ quoted "amount" ++ ":" ++ quoted "7"
  ++ "}]}".

Definition garbage : string := "not json".

Definition sampleTexts : list (string * value) :=
  [(bidPage 0, JObject [("Bid", JArray [])]);
   (bidPage 1, JObject [("Bid", JArray (repeat (JObject []) 1))]);
   (bidPage 2, JObject [("Bid", JArray (repeat (JObject []) 2))]);
   (bidPage 50, JObject [("Bid", JArray (repeat (JObject []) 50))]);
   (balancesText,
    JObject [("balances",
              JArray [JObject [("denom", JString "token"); ("amount", JString "12")];
                      JObject [("denom", JString "stake"); ("amount", JString "7")]])]);
   ("[]", JArray [])].

(** [json.Unmarshal] on the texts above; any other text, [garbage] for one,
    is reported as malformed. *)
Definition sampleUnmarshal (data : string) : result value :=
  match find (fun e => String.eqb (fst e) data) sampleTexts with
  | Some e => Ok (snd e)
  | None => Err "invalid character 'o' in literal null (expecting 'u')"
  end.

Definition sampleUnmarshalKeys (data : string) : result (list Key) :=
  match sampleUnmarshal data with
  | Err e => Err e
  | Ok (JArray []) => Ok []
  | Ok _ => Err "json: cannot unmarshal object into Go value of type []main.Key"
  end.

(** A world that answers the processes by a script, and by [final] once the
    script is through. *)
Definition replay (script : list RunResult) (final : RunResult)
  : Trace -> string -> list string -> RunResult :=
  fun tr _ _ => nth (started tr) script final.

Definition refused : RunResult := Failed "exit status 1" "" "connection refused".

(** A source with 150 records: pages of 50, 50, 50 and then none. *)
Definition source150 : Trace -> string -> list string -> RunResult :=
  replay [Exited (bidPage 50) ""; Exited (bidPage 50) ""; Exited (bidPage 50) ""]
    (Exited (bidPage 0) "").

(** A source that has a full page at every offset. *)
Definition sourceFull : Trace -> string -> list string -> RunResult :=
  replay [] (Exited (bidPage 50) "").

(** A source that answers every query by a page of one record. *)
Definition sourceOne : Trace -> string -> list string -> RunResult :=
  replay [] (Exited (bidPage 1) "").

(** A source that yields a page of two records and is then out of reach. *)
Definition sourceLost : Trace -> string -> list string -> RunResult :=
  replay [Exited (bidPage 2) ""] refused.

(** A node whose output is not JSON. *)
Definition sourceGarbage : Trace -> string -> list string -> RunResult :=
  replay [] (Exited garbage "").

(** A node that reports two balances. *)
Definition sourceBalances : Trace -> string -> list string -> RunResult :=
  replay [] (Exited (balancesText ++ nl) "").

(** The JSON text of a value whose strings need no escape. *)
Fixpoint renderJson (v : value) : string :=
  match v with
  | JNull => "null"
  | JBool b => if b then "true" else "false"
  | JNumber shown => shown
  | JString s => quoted s
  | JArray l => "[" ++ join "," (map renderJson l) ++ "]"
  | JObject m =>
      "{" ++ join "," (map (fun '(k, x) => quoted k ++ ":" ++ renderJson x) m)
      ++ "}"
  end.

Definition rawAuction (id status : string) : value :=
  JObject [("id", JString id); ("issue", JString "issue"); ("description", JString "");
           ("status", JString status); ("winner", JString "");
           ("creator", JString address40)].

Definition rawBid (auctionId amount : string) : value :=
  JObject [("auctionId", JString auctionId); ("amount", JString amount);
           ("description", JString ""); ("creator", JString address40);
           ("bidder", JString address40)].

(** Three auctions, two of them open. *)
Definition auctionsAnswer : value :=
  JObject [("Auction",
            JArray [rawAuction "1" "open"; rawAuction "2" "closed";
                    rawAuction "3" " OPEN "])].

(** Seven bids, two of them for auction 2. *)
Definition bidsAnswer : value :=
  JObject [("Bid",
            JArray [rawBid "1" "5token"; rawBid "2" "6token"; rawBid "1" "9token";
                    rawBid "3" "1token"; rawBid "2" "8token"; rawBid "3" "2token";
                    rawBid "1" "3token"])].

Definition ownersAnswer : value :=
  JObject [("denom_owners",
            JArray [JObject [("address", JString address40);
                             ("balance",
                              JObject [("denom", JString "token");
                                       ("amount", JString "12")])]])].

Definition keyAnswer : value :=
  JObject [("name", JString "alice"); ("address", JString address40)].

Definition keyAnswerNoAddress : value := JObject [("name", JString "alice")].

Definition moreAnswers : list value :=
  [auctionsAnswer; bidsAnswer; ownersAnswer; keyAnswer; keyAnswerNoAddress;
   JObject [("Auction", JArray [])]].

(** [json.Unmarshal] on the texts of [moreAnswers] too. *)
Definition sampleUnmarshal2 (data : string) : result value :=
  match find (fun v => String.eqb (renderJson v) data) moreAnswers with
  | Some v => Ok v
  | None => sampleUnmarshal data
  end.

(** A node that holds the auctions, bids and token holders above, all on the
    first page, and the key [alice]. *)
Definition sampleNode : Trace -> string -> list string -> RunResult :=
  fun _ _ arg =>
    match arg with
    | "query" :: "issuemarket" :: query :: _ =>
        if String.eqb query "list-auction" then
          if String.eqb (nth 8 arg "") "0"
          then Exited (renderJson auctionsAnswer) ""
          else Exited (renderJson (JObject [("Auction", JArray [])])) ""
        else
          if String.eqb (nth 8 arg "") "0"
          then Exited (renderJson bidsAnswer) ""
          else Exited (bidPage 0) ""
    | "query" :: "bank" :: "denom-owners" :: _ =>
        Exited (renderJson ownersAnswer) ""
    | "keys" :: "show" :: _ => Exited (renderJson keyAnswer) ""
    | "keys" :: "list" :: _ => Exited "[]" ""
    | _ => refused
    end.

(** A node whose key record has no address. *)
Definition sourceNoAddress : Trace -> string -> list string -> RunResult :=
  replay [] (Exited (renderJson keyAnswerNoAddress) "").

(** Arguments of the transactions: a bid that leaves the amount and the
    description out, and calls the handlers reject. *)
Definition bidParams : CreateBidParams :=
  {| CreateBid_AuctionId := " 2 "; CreateBid_Bidder := address40;
     CreateBid_Amount := ""; CreateBid_Description := "";
     CreateBid_From := address40 |}.

Definition rejectedBidParams : CreateBidParams :=
  {| CreateBid_AuctionId := "two"; CreateBid_Bidder := address40;
     CreateBid_Amount := ""; CreateBid_Description := "";
     CreateBid_From := address40 |}.

Definition auctionParams (issue status : string) : OpenAuctionParams :=
  {| OpenAuction_Issue := issue; OpenAuction_Description := "fix the build";
     OpenAuction_Status := status; OpenAuction_Winner := "";
     OpenAuction_From := address40 |}.

Definition payParams (to : string) : PayParams :=
  {| Pay_From := address40; Pay_To := to; Pay_Amount := "10token" |}.

Definition closeParams (auctionId : string) : CloseAuctionParams :=
  {| CloseAuction_AuctionId := auctionId; CloseAuction_Status := "closed";
     CloseAuction_Issue := ""; CloseAuction_Description := "";
     CloseAuction_Winner := ""; CloseAuction_From := address40 |}.

(** A node that accepts every transaction. *)
Definition sourceAccepting : Trace -> string -> list string -> RunResult :=
  replay [] (Exited "{}" "").

(** The seven bids of [bidsAnswer], as records. *)
Definition bidRecord (auctionId amount : string) : object :=
  [("auctionId", JString auctionId); ("amount", JString amount);
   ("description", JString ""); ("creator", JString address40);
   ("bidder", JString address40)].

Definition sevenBids : list object :=
  [bidRecord "1" "5token"; bidRecord "2" "6token"; bidRecord "1" "9token";
   bidRecord "3" "1token"; bidRecord "2" "8token"; bidRecord "3" "2token";
   bidRecord "1" "3token"].

(** A source that yields the page of seven bids and is then out of reach. *)
Definition sourceLostBids : Trace -> string -> list string -> RunResult :=
  replay [Exited (renderJson bidsAnswer) ""] refused.

(** A source that yields the page of seven bids and then text that is not
    JSON. *)
Definition sourceGarbledLater : Trace -> string -> list string -> RunResult :=
  replay [Exited (renderJson bidsAnswer) ""] (Exited garbage "").

(** A source that answers every query by the page of seven bids. *)
Definition sourceSame : Trace -> string -> list string -> RunResult :=
  replay [] (Exited (renderJson bidsAnswer) "").

(** * Properties *)

(** ** Address validation *)

Lemma HasPrefix_spec (prefix : string) :
  forall s, Go.HasPrefix s prefix = true <-> exists rest, s = prefix ++ rest.
Proof.
  unfold Go.HasPrefix.
  induction prefix as [|c p IH]; intros s.
  - split; [intros _; exists s; reflexivity|intros _].
    destruct s; reflexivity.
  - destruct s as [|d s]; simpl.
    + split; [discriminate|intros [rest H]; discriminate].
    + specialize (IH s). simpl in IH.
      destruct (Ascii.eqb_spec d c) as [->|Hdc].
      * rewrite IH. split; intros [rest H]; exists rest.
        -- now rewrite H.
        -- now injection H.
      * rewrite andb_false_r. split; [discriminate|].
        intros [rest H]. injection H as Hd _. contradiction.
Qed.

(** C8. [isValidCosmosAddress s] holds exactly when the trimmed [s] starts
    with [cosmos1] and has 39 to 45 bytes; so a trimmed text with the prefix
    and 40 bytes passes, one of 38 bytes fails, and one without the prefix
    fails. *)
Theorem isValidCosmosAddress_spec :
  (forall s,
     isValidCosmosAddress s = true <->
     (exists rest, Go.TrimSpace s = "cosmos1" ++ rest)
     /\ (39 <= String.length (Go.TrimSpace s) <= 45)%nat)
  /\ (forall s rest,
        Go.TrimSpace s = "cosmos1" ++ rest ->
        String.length (Go.TrimSpace s) = 40%nat ->
        isValidCosmosAddress s = true)
  /\ (forall s,
        String.length (Go.TrimSpace s) = 38%nat -> isValidCosmosAddress s = false)
  /\ (forall s,
        (forall rest, Go.TrimSpace s <> "cosmos1" ++ rest) ->
        isValidCosmosAddress s = false).
Proof.
  assert (Hiff : forall s,
     isValidCosmosAddress s = true <->
     (exists rest, Go.TrimSpace s = "cosmos1" ++ rest)
     /\ (39 <= String.length (Go.TrimSpace s) <= 45)%nat).
  { intros s. unfold isValidCosmosAddress.
    rewrite !andb_true_iff, HasPrefix_spec, Nat.leb_le, Nat.leb_le.
    tauto. }
  split; [exact Hiff|].
  split; [|split].
  - intros s rest Hp Hl. apply Hiff. split; [exists rest; exact Hp|lia].
  - intros s Hl. destruct (isValidCosmosAddress s) eqn:E; [|reflexivity].
    apply Hiff in E. lia.
  - intros s Hn. destruct (isValidCosmosAddress s) eqn:E; [|reflexivity].
    apply Hiff in E. destruct E as [[rest Hr] _]. elim (Hn rest Hr).
Qed.

Lemma isValidCosmosAddress_witness :
  isValidCosmosAddress ("  " ++ address40 ++ nl) = true
  /\ isValidCosmosAddress address38 = false
  /\ isValidCosmosAddress addressNoPrefix = false.
Proof.
  destruct isValidCosmosAddress_spec as (_ & H40 & H38 & Hprefix).
  split; [|split].
  - apply (H40 _ "abcdefghijklmnopqrstuvwxyz0123456"); reflexivity.
  - apply H38. reflexivity.
  - apply Hprefix. intros rest. vm_compute. discriminate.
Defined.

(** ** Aggregator *)

Lemma last_cons {A : Type} (l : list A) :
  forall x d, last (x :: l) d = last l x.
Proof.
  induction l as [|y l IH]; intros x d; [reflexivity|].
  change (last (x :: y :: l) d) with (last (y :: l) d).
  now rewrite !IH.
Qed.

Lemma scanBids_spec (auctionID : Z) (bids : list Bid) :
  forall auctionBids currentBidAmount,
    scanBids auctionID bids auctionBids currentBidAmount
    = ((auctionBids
          ++ map bidDetailOf (filter (fun b => Bid_AuctionID b =? auctionID) bids))%list,
       last (map Bid_Amount (filter (fun b => Bid_AuctionID b =? auctionID) bids))
         currentBidAmount).
Proof.
  induction bids as [|bid rest IH]; intros acc cur; simpl.
  - now rewrite app_nil_r.
  - destruct (Bid_AuctionID bid =? auctionID); [|apply IH].
    rewrite IH, <- app_assoc. cbn [map app].
    now rewrite last_cons.
Qed.

Lemma auctionDetail_spec (auction : Auction) (bids : list Bid) :
  auctionDetail auction bids = joinedDetail auction bids.
Proof.
  unfold auctionDetail, joinedDetail, matchingBids.
  now rewrite scanBids_spec.
Qed.

Lemma auctionDetailsFrom_spec (bids : list Bid) (auctions : list Auction) :
  forall auctionDetails,
    auctionDetailsFrom auctionDetails auctions bids
    = (auctionDetails ++ map (fun a => auctionDetail a bids) auctions)%list.
Proof.
  induction auctions as [|a rest IH]; intros acc; simpl.
  - now rewrite app_nil_r.
  - now rewrite IH, <- app_assoc.
Qed.

Lemma countWithBids_spec (auctionDetails : list AuctionDetail) :
  forall bidCount,
    countWithBids bidCount auctionDetails
    = bidCount
      + len (filter (fun d => (0 <? List.length (AuctionDetail_Bids d))%nat)
               auctionDetails).
Proof.
  unfold len.
  induction auctionDetails as [|d rest IH]; intros n; simpl.
  - lia.
  - destruct (0 <? List.length (AuctionDetail_Bids d))%nat; rewrite IH; simpl length; lia.
Qed.

Lemma auctionDetail_hasBid (bids : list Bid) (a : Auction) :
  (0 <? List.length (AuctionDetail_Bids (auctionDetail a bids)))%nat
  = hasBid bids a.
Proof.
  rewrite auctionDetail_spec. unfold joinedDetail, hasBid, matchingBids. simpl.
  rewrite length_map.
  induction bids as [|b bs IH]; simpl; [reflexivity|].
  destruct (Bid_AuctionID b =? Auction_ID a); [reflexivity|exact IH].
Qed.

Lemma withBids_count (bids : list Bid) (auctions : list Auction) :
  filter (fun d => (0 <? List.length (AuctionDetail_Bids d))%nat)
    (map (fun a => auctionDetail a bids) auctions)
  = map (fun a => auctionDetail a bids) (filter (hasBid bids) auctions).
Proof.
  induction auctions as [|a rest IH]; simpl; [reflexivity|].
  rewrite auctionDetail_hasBid, IH.
  destruct (hasBid bids a); reflexivity.
Qed.

(** C1. The auction details follow the auctions in input order; each one
    carries exactly the bids whose auction identifier is the auction's, in
    scan order, and as current bid amount the amount of the last of them,
    [0token] when there is none. *)
Theorem buildAuctionSummaryResponse_join
    (auctions : list Auction) (bids : list Bid) (owners : list DenomOwner)
    (auctionType : string) :
  Forall2
    (fun a d =>
       AuctionDetail_AuctionID d = Auction_ID a
       /\ AuctionDetail_Bids d = map bidDetailOf (matchingBids a bids)
       /\ AuctionDetail_CurrentBidAmount d
          = last (map Bid_Amount (matchingBids a bids)) "0token"
       /\ (matchingBids a bids = [] -> AuctionDetail_CurrentBidAmount d = "0token"))
    auctions
    (AuctionSummary_Auctions
       (buildAuctionSummaryResponse auctions bids owners auctionType)).
Proof.
  unfold buildAuctionSummaryResponse. simpl.
  rewrite auctionDetailsFrom_spec. simpl.
  induction auctions as [|a rest IH]; simpl; constructor; [|exact IH].
  rewrite auctionDetail_spec. simpl.
  repeat split. intros H. now rewrite H.
Qed.

Lemma buildAuctionSummaryResponse_join_witness :
  map AuctionDetail_CurrentBidAmount
    (AuctionSummary_Auctions
       (buildAuctionSummaryResponse [sampleAuction 1; sampleAuction 2] joinBids
          [] "open"))
  = ["9token"; "0token"].
Proof.
  pose proof (buildAuctionSummaryResponse_join
                [sampleAuction 1; sampleAuction 2] joinBids [] "open") as H.
  remember (AuctionSummary_Auctions
              (buildAuctionSummaryResponse [sampleAuction 1; sampleAuction 2]
                 joinBids [] "open")) as details eqn:E.
  clear E.
  inversion H as [|a1 d1 l1 l1' (_ & _ & H1 & _) H' E1 E1']; subst.
  inversion H' as [|a2 d2 l2 l2' (_ & _ & _ & H2) H'' E2 E2']; subst.
  inversion H''; subst.
  cbn [map]. rewrite H1, (H2 eq_refl). reflexivity.
Defined.

(** C7. In mode [open] the summary of no auctions is the fixed sentence, and
    that of [N > 0] auctions, [B] of them with a matching bid, counts [N],
    [B] and [N - B]; in mode [all] it counts the auctions and the bids. *)
Theorem buildAuctionSummaryResponse_summary
    (auctions : list Auction) (bids : list Bid) (owners : list DenomOwner) :
  let N := len auctions in
  let B := len (filter (hasBid bids) auctions) in
  (auctions = [] ->
   AuctionSummary_Summary (buildAuctionSummaryResponse auctions bids owners "open")
   = "No open auctions found.")
  /\ (0 < N ->
      AuctionSummary_Summary (buildAuctionSummaryResponse auctions bids owners "open")
      = "There are " ++ Go.Itoa N ++ " open auctions (" ++ Go.Itoa B
        ++ " with bids, " ++ Go.Itoa (N - B) ++ " without bids).")
  /\ AuctionSummary_Summary (buildAuctionSummaryResponse auctions bids owners "all")
     = "There are " ++ Go.Itoa N ++ " total auctions with " ++ Go.Itoa (len bids)
       ++ " total bids."
  /\ 0 <= B <= N.
Proof.
  intros N B. unfold buildAuctionSummaryResponse. cbn [AuctionSummary_Summary].
  change (String.eqb "open" "open") with true.
  change (String.eqb "all" "open") with false. cbv iota.
  rewrite auctionDetailsFrom_spec, countWithBids_spec. cbn [app].
  rewrite withBids_count.
  replace (0 + len (map (fun a => auctionDetail a bids)
                      (filter (hasBid bids) auctions))) with B
    by (unfold B, len; rewrite length_map; lia).
  fold N.
  repeat split.
  - intros ->. reflexivity.
  - intros HN. destruct (N =? 0) eqn:E; [apply Z.eqb_eq in E; lia|].
    reflexivity.
  - unfold B, len. lia.
  - unfold B, N, len. pose proof (filter_length_le (hasBid bids) auctions). lia.
Qed.

Lemma buildAuctionSummaryResponse_summary_witness :
  AuctionSummary_Summary
    (buildAuctionSummaryResponse
       [sampleAuction 1; sampleAuction 2; sampleAuction 3]
       [sampleBid 1 "5token"; sampleBid 3 "7token"; sampleBid 1 "9token"] [] "open")
  = "There are 3 open auctions (2 with bids, 1 without bids)."
  /\ AuctionSummary_Summary (buildAuctionSummaryResponse [] joinBids [] "open")
     = "No open auctions found."
  /\ AuctionSummary_Summary
       (buildAuctionSummaryResponse [sampleAuction 1; sampleAuction 2] joinBids
          [] "all")
     = "There are 2 total auctions with 2 total bids.".
Proof.
  split; [|split].
  - destruct (buildAuctionSummaryResponse_summary
                [sampleAuction 1; sampleAuction 2; sampleAuction 3]
                [sampleBid 1 "5token"; sampleBid 3 "7token"; sampleBid 1 "9token"]
                []) as (_ & H & _).
    rewrite H; [reflexivity|unfold len; simpl; lia].
  - destruct (buildAuctionSummaryResponse_summary [] joinBids []) as (H & _).
    now apply H.
  - destruct (buildAuctionSummaryResponse_summary
                [sampleAuction 1; sampleAuction 2] joinBids []) as (_ & _ & H & _).
    rewrite H. reflexivity.
Defined.

(** ** Record parsers *)


Lemma parseBidsFrom_spec (rawData : list object) :
  forall bids,
    parseBidsFrom bids rawData = (bids ++ map parseBid rawData)%list.
Proof.
  induction rawData as [|raw rest IH]; intros acc; simpl.
  - now rewrite app_nil_r.
  - now rewrite IH, <- app_assoc.
Qed.













(** [Atoi] leaves its scan at the first overflow: digits that overflow 64
    bits parse to the largest [int], whatever follows them. *)
Example parseAuctions_overflowing_identifier :
  map Auction_ID (parseAuctions [rawWithId (JString "99999999999999999999x")])
  = [9223372036854775807].
Proof. reflexivity. Qed.

(** ** Command runner *)

Lemma slept_app (tr1 tr2 : Trace) : slept (tr1 ++ tr2)%list = slept tr1 + slept tr2.
Proof.
  induction tr1 as [|[name arg|d] tr1 IH]; simpl; lia.
Qed.

Section RunCommand.

Variable exec : Trace -> string -> list string -> RunResult.
Variables (name : string) (arg : list string).

(** One turn of the loop. *)
Lemma attempts_S (todo : nat) (i : Z) (lastErr : option string) (tr : Trace) :
  attempts exec name arg (S todo) i lastErr tr
  = match exec tr name arg with
    | Exited out _ => (Ok (Go.TrimSpace out), (tr ++ [Started name arg])%list)
    | Failed err out errout =>
        attempts exec name arg todo (i + 1) (Some (failure err out errout))
          (if i <? maxRetries - 1
           then (tr ++ [Started name arg; Slept ((i + 1) * Second)])%list
           else (tr ++ [Started name arg])%list)
    end.
Proof.
  cbn [attempts]. unfold bind, Run.
  destruct (exec tr name arg) as [out errout|err out errout]; [reflexivity|].
  destruct (i <? maxRetries - 1); unfold Sleep, ret; cbv beta iota;
    [now rewrite <- app_assoc|reflexivity].
Qed.

(** Every call starts the command at once. *)
Lemma attempts_starts (todo : nat) :
  forall i lastErr tr,
    exists rest,
      snd (attempts exec name arg (S todo) i lastErr tr)
      = (tr ++ Started name arg :: rest)%list.
Proof.
  induction todo as [|todo IH]; intros i lastErr tr; rewrite attempts_S;
    destruct (exec tr name arg) as [out errout|err out errout];
    try (exists []; reflexivity).
  - destruct (i <? maxRetries - 1); simpl; eexists; reflexivity.
  - destruct (i <? maxRetries - 1);
      match goal with
      | |- context [attempts _ _ _ _ ?j ?e ?t] =>
          destruct (IH j e t) as [rest Hrest]; rewrite Hrest
      end;
      rewrite <- app_assoc; eexists; reflexivity.
Qed.

Lemma runCommand_starts (tr : Trace) :
  exists rest,
    snd (runCommand exec name arg tr) = (tr ++ Started name arg :: rest)%list.
Proof. apply attempts_starts. Qed.

(** C3. When the first [k - 1] attempts fail and attempt [k <= 3] succeeds,
    [runCommand] returns the trimmed output of that attempt and no error;
    before it the runner slept 1 second after the first failure and 2 after
    the second, [1 + ... + (k - 1)] seconds in all. *)
Theorem runCommand_retry (tr : Trace) (k : nat) (stdout stderr : string) :
  (1 <= k <= 3)%nat ->
  (forall j, (j < k - 1)%nat ->
     exists err out errout,
       exec (retryTrace name arg tr j) name arg = Failed err out errout) ->
  exec (retryTrace name arg tr (k - 1)) name arg = Exited stdout stderr ->
  runCommand exec name arg tr
  = (Ok (Go.TrimSpace stdout),
     (retryTrace name arg tr (k - 1) ++ [Started name arg])%list)
  /\ slept (retryTrace name arg tr (k - 1) ++ [Started name arg])%list - slept tr
     = Z.of_nat ((k - 1) * k / 2) * Second.
Proof.
  intros Hk Hfail Hok.
  assert (Hcases : k = 1%nat \/ k = 2%nat \/ k = 3%nat) by lia.
  unfold runCommand. change (Z.to_nat maxRetries) with 3%nat.
  destruct Hcases as [-> | [-> | ->]]; cbn [Nat.sub retryTrace] in *.
  - split.
    + now rewrite attempts_S, Hok.
    + rewrite slept_app. simpl. lia.
  - destruct (Hfail 0%nat) as (e0 & o0 & s0 & H0); [lia|].
    cbn [retryTrace] in H0.
    split.
    + rewrite attempts_S, H0. change (0 <? maxRetries - 1) with true. cbv iota.
      change ((0 + 1) * Second) with (Z.of_nat 1 * Second).
      now rewrite attempts_S, Hok.
    + rewrite !slept_app. simpl. lia.
  - destruct (Hfail 0%nat) as (e0 & o0 & s0 & H0); [lia|].
    destruct (Hfail 1%nat) as (e1 & o1 & s1 & H1); [lia|].
    cbn [retryTrace] in H0, H1.
    split.
    + rewrite attempts_S, H0. change (0 <? maxRetries - 1) with true. cbv iota.
      change ((0 + 1) * Second) with (Z.of_nat 1 * Second).
      rewrite attempts_S, H1. change (0 + 1 <? maxRetries - 1) with true. cbv iota.
      change ((0 + 1 + 1) * Second) with (Z.of_nat 2 * Second).
      now rewrite attempts_S, Hok.
    + rewrite !slept_app. simpl. lia.
Qed.

End RunCommand.

Lemma runCommand_retry_witness :
  runCommand (replay [refused] (Exited (" ok" ++ nl) "")) "swechaind" ["status"] []
  = (Ok "ok",
     [Started "swechaind" ["status"]; Slept Second; Started "swechaind" ["status"]])
  /\ slept [Started "swechaind" ["status"]; Slept Second;
            Started "swechaind" ["status"]] - slept [] = 1 * Second.
Proof.
  apply (runCommand_retry (replay [refused] (Exited (" ok" ++ nl) ""))
           "swechaind" ["status"] [] 2 (" ok" ++ nl) "").
  - lia.
  - intros j Hj. assert (j = 0%nat) as -> by lia.
    exists "exit status 1", "", "connection refused". reflexivity.
  - reflexivity.
Defined.

(** ** Paginated fetch *)

Lemma appendObjects_app (p q : list value) :
  forall acc, appendObjects acc (p ++ q) = appendObjects (appendObjects acc p) q.
Proof.
  induction p as [|v p IH]; intros acc; simpl; [reflexivity|].
  destruct (asObject v); apply IH.
Qed.

Lemma appendObjects_length (results : list value) :
  forall acc,
    List.length (appendObjects acc results)
    = (List.length acc + List.length (filter isObject results))%nat.
Proof.
  induction results as [|v l IH]; intros acc; simpl; [lia|].
  destruct v; simpl; rewrite IH; try reflexivity.
  rewrite length_app. simpl. lia.
Qed.

(** The accumulated records are the objects of the elements, in order. *)
Lemma appendObjects_objectsOf (results : list value) :
  forall acc, appendObjects acc results = (acc ++ objectsOf results)%list.
Proof.
  induction results as [|v l IH]; intros acc; cbn [appendObjects objectsOf].
  - now rewrite app_nil_r.
  - destruct v; cbn [asObject]; rewrite IH; try reflexivity.
    now rewrite <- app_assoc.
Qed.

Lemma objectsOf_length (results : list value) :
  List.length (objectsOf results) = List.length (filter isObject results).
Proof.
  induction results as [|v l IH]; [reflexivity|].
  destruct v; cbn [objectsOf filter isObject List.length]; now rewrite ?IH.
Qed.

(** Pages of [pageLimit] records each hold [pageLimit] records a page. *)
Lemma full_pages_length (pages : list (list value)) :
  Forall (fun p => List.length p = 50%nat /\ forallb isObject p = true) pages ->
  List.length (filter isObject (concat pages)) = (50 * List.length pages)%nat.
Proof.
  induction 1 as [|p pages [Hlen Hobj] _ IH]; [reflexivity|].
  cbn [concat]. rewrite filter_app, length_app, IH.
  replace (filter isObject p) with p.
  - simpl. lia.
  - clear Hlen. induction p as [|v p IHp]; [reflexivity|].
    simpl in *. apply andb_true_iff in Hobj as [Hv Hp].
    rewrite Hv. f_equal. now apply IHp.
Qed.

Section Fetch.

Variable exec : Trace -> string -> list string -> RunResult.
Variable Unmarshal : string -> result value.
Variable swechaindCmd : string.
Variables module query dataKey : string.

Local Abbreviation fetch :=
  (fetchPages exec Unmarshal swechaindCmd module query dataKey).
Local Abbreviation pages_from :=
  (PagesFrom exec Unmarshal swechaindCmd module query dataKey).
Local Abbreviation stops :=
  (Stops exec Unmarshal swechaindCmd module query dataKey).

(** One turn of the loop. *)
Lemma fetchPages_S (fuel : nat) (offset : Z) (acc : list object) (tr : Trace) :
  fetch (S fuel) offset acc tr
  = if offset / pageLimit <? maxPages then
      let '(r, tr1) :=
        runCommand exec swechaindCmd (pageArgs module query offset) tr in
      match pageOf Unmarshal dataKey r with
      | None => (acc, tr1)
      | Some results =>
          fetch fuel (offset + pageLimit) (appendObjects acc results)
            (tr1 ++ [Slept requestDelay])%list
      end
    else (acc, tr).
Proof.
  cbn [fetchPages]. destruct (offset / pageLimit <? maxPages); [|reflexivity].
  unfold bind.
  destruct (runCommand exec swechaindCmd (pageArgs module query offset) tr)
    as [[output|e] tr1]; cbn [pageOf]; [|reflexivity].
  destruct (unmarshalObject Unmarshal output) as [responseData|e]; [|reflexivity].
  destruct (asArray (index responseData dataKey)) as [results|]; [|reflexivity].
  destruct (len results =? 0); reflexivity.
Qed.

Lemma fetchPages_pages (pages : list (list value)) :
  forall i tr tr1 acc fuel,
    pages_from (pageLimit * i) tr pages tr1 ->
    0 <= i -> i + len pages <= maxPages ->
    fetch (List.length pages + fuel) (pageLimit * i) acc tr
    = fetch fuel (pageLimit * (i + len pages))
        (appendObjects acc (concat pages)) tr1.
Proof.
  unfold len.
  induction pages as [|p pages IH]; intros i tr tr1 acc fuel H Hi Hlen.
  - inversion H; subst. simpl. now rewrite Z.add_0_r.
  - inversion H as [|o t t1 t' r results ps Hrun Hpage Hrest]; subst.
    cbn [List.length Nat.add] in *. rewrite fetchPages_S.
    replace (pageLimit * i / pageLimit) with i
      by (unfold pageLimit; rewrite Z.mul_comm, Z.div_mul; lia).
    destruct (i <? maxPages) eqn:E; [|apply Z.ltb_ge in E; lia].
    rewrite Hrun, Hpage.
    replace (pageLimit * i + pageLimit) with (pageLimit * (i + 1)) in * by lia.
    rewrite (IH (i + 1) _ tr1); [|exact Hrest|lia|lia].
    cbn [concat]. rewrite appendObjects_app.
    f_equal. lia.
Qed.

Lemma fetchPages_done (fuel : nat) (acc : list object) (tr : Trace) :
  fetch fuel (pageLimit * maxPages) acc tr = (acc, tr).
Proof. destruct fuel; [reflexivity|]. now rewrite fetchPages_S. Qed.

Lemma fetchPages_stops (fuel : nat) (i : Z) (acc : list object) (tr tr' : Trace) :
  0 <= i < maxPages -> stops (pageLimit * i) tr tr' ->
  fetch (S fuel) (pageLimit * i) acc tr = (acc, tr').
Proof.
  intros Hi (r & Hrun & Hpage). rewrite fetchPages_S.
  replace (pageLimit * i / pageLimit) with i
    by (unfold pageLimit; rewrite Z.mul_comm, Z.div_mul; lia).
  destruct (i <? maxPages) eqn:E; [|apply Z.ltb_ge in E; lia].
  now rewrite Hrun, Hpage.
Qed.

(** Every run is a sequence of pages that ends by a stop or at page
    [n]. *)
Lemma pages_exist (n : nat) :
  forall i tr,
    exists pages tr1,
      pages_from (pageLimit * i) tr pages tr1
      /\ (List.length pages <= n)%nat
      /\ ((List.length pages < n)%nat ->
          exists tr', stops (pageLimit * (i + len pages)) tr1 tr').
Proof.
  unfold len.
  induction n as [|n IH]; intros i tr.
  - exists [], tr. split; [constructor|]. simpl. split; lia.
  - destruct (runCommand exec swechaindCmd
                (pageArgs module query (pageLimit * i)) tr) as [r tr1] eqn:Hrun.
    destruct (pageOf Unmarshal dataKey r) as [results|] eqn:Hpage.
    + destruct (IH (i + 1) (tr1 ++ [Slept requestDelay])%list)
        as (pages & tr2 & Hpages & Hlen & Hstop).
      exists (results :: pages), tr2. split; [|split].
      * econstructor; [exact Hrun|exact Hpage|].
        replace (pageLimit * i + pageLimit) with (pageLimit * (i + 1)) by lia.
        exact Hpages.
      * simpl. lia.
      * intros Hlt. destruct Hstop as [tr' Hstop]; [simpl in Hlt; lia|].
        exists tr'. cbn [List.length].
        replace (i + Z.of_nat (S (List.length pages)))
          with (i + 1 + Z.of_nat (List.length pages)) by lia.
        exact Hstop.
    + exists [], tr. split; [constructor|]. simpl. split; [lia|].
      intros _. exists tr1, r. rewrite Z.add_0_r. now split.
Qed.

Lemma fetchPaginatedData_full (pages : list (list value)) (tr tr1 : Trace) :
  pages_from 0 tr pages tr1 -> List.length pages = 10%nat ->
  fetchPaginatedData exec Unmarshal swechaindCmd module query dataKey tr
  = (appendObjects [] (concat pages), tr1).
Proof.
  intros H Hlen. unfold fetchPaginatedData.
  change (Z.to_nat maxPages) with 10%nat.
  replace 10%nat with (List.length pages + 0)%nat by lia.
  change 0 with (pageLimit * 0) at 1.
  rewrite (fetchPages_pages pages 0 tr tr1); unfold len;
    [|exact H|lia|unfold maxPages; lia].
  reflexivity.
Qed.

Lemma fetchPaginatedData_stops (pages : list (list value)) (tr tr1 tr' : Trace) :
  pages_from 0 tr pages tr1 -> (List.length pages < 10)%nat ->
  stops (pageLimit * len pages) tr1 tr' ->
  fetchPaginatedData exec Unmarshal swechaindCmd module query dataKey tr
  = (appendObjects [] (concat pages), tr').
Proof.
  intros H Hlen Hstop. unfold fetchPaginatedData.
  change (Z.to_nat maxPages) with 10%nat.
  replace 10%nat with (List.length pages + S (9 - List.length pages))%nat by lia.
  change 0 with (pageLimit * 0) at 1.
  rewrite (fetchPages_pages pages 0 tr tr1); unfold len in *;
    [|exact H|lia|unfold maxPages; lia].
  apply fetchPages_stops; [unfold maxPages; lia|exact Hstop].
Qed.

(** [maxPages] iterations are all the loop makes: more fuel changes
    nothing. *)
Lemma fetchPages_fuel (extra : nat) (tr : Trace) :
  fetch (Z.to_nat maxPages + extra) 0 [] tr
  = fetchPaginatedData exec Unmarshal swechaindCmd module query dataKey tr.
Proof.
  destruct (pages_exist 10 0 tr) as (pages & tr1 & H & Hlen & Hstop).
  change (pageLimit * 0) with 0 in H.
  change (Z.to_nat maxPages) with 10%nat.
  destruct (Nat.eq_dec (List.length pages) 10) as [E|E].
  - rewrite (fetchPaginatedData_full pages tr tr1 H E).
    replace (10 + extra)%nat with (List.length pages + extra)%nat by lia.
    change 0 with (pageLimit * 0) at 1.
    rewrite (fetchPages_pages pages 0 tr tr1); unfold len;
      [|exact H|lia|unfold maxPages; lia].
    replace (0 + Z.of_nat (List.length pages)) with maxPages
      by (unfold maxPages; lia).
    apply fetchPages_done.
  - destruct Hstop as [tr' Hstop]; [lia|].
    rewrite (fetchPaginatedData_stops pages tr tr1 tr' H); [|lia|exact Hstop].
    replace (10 + extra)%nat
      with (List.length pages + S (9 - List.length pages + extra))%nat by lia.
    change 0 with (pageLimit * 0) at 1.
    rewrite (fetchPages_pages pages 0 tr tr1); unfold len in *;
      [|exact H|lia|unfold maxPages; lia].
    apply fetchPages_stops; [unfold maxPages; lia|exact Hstop].
Qed.

End Fetch.

(** C2, as the code has it. A fetch queries the pages at the offsets 0, 50,
    100, ... one after the other; it ends at the first query that fails or
    whose array is absent or empty, and after the tenth page at the latest;
    it returns the objects of the pages it got, in order. With 50 objects
    on every page that is 50 records a page: 150 for three pages and then an
    empty one, 500 when no page is empty. *)
Theorem fetchPaginatedData_pages
    (exec : Trace -> string -> list string -> RunResult)
    (Unmarshal : string -> result value)
    (swechaindCmd module query dataKey : string) (tr : Trace) :
  exists pages tr1 tr',
    PagesFrom exec Unmarshal swechaindCmd module query dataKey 0 tr pages tr1
    /\ (List.length pages <= 10)%nat
    /\ (if (List.length pages <? 10)%nat
        then Stops exec Unmarshal swechaindCmd module query dataKey
               (pageLimit * len pages) tr1 tr'
        else tr' = tr1)
    /\ fetchPaginatedData exec Unmarshal swechaindCmd module query dataKey tr
       = (objectsOf (concat pages), tr')
    /\ (Forall (fun p => List.length p = 50%nat /\ forallb isObject p = true) pages ->
        List.length
          (fst (fetchPaginatedData exec Unmarshal swechaindCmd module query dataKey tr))
        = (50 * List.length pages)%nat).
Proof.
  destruct (pages_exist exec Unmarshal swechaindCmd module query dataKey 10 0 tr)
    as (pages & tr1 & H & Hlen & Hstop).
  change (pageLimit * 0) with 0 in H.
  assert (Hres : exists tr',
    (if (List.length pages <? 10)%nat
     then Stops exec Unmarshal swechaindCmd module query dataKey
            (pageLimit * len pages) tr1 tr'
     else tr' = tr1)
    /\ fetchPaginatedData exec Unmarshal swechaindCmd module query dataKey tr
       = (objectsOf (concat pages), tr')).
  { destruct (List.length pages <? 10)%nat eqn:E.
    - apply Nat.ltb_lt in E. destruct (Hstop E) as [tr' Hs].
      rewrite Z.add_0_l in Hs. exists tr'. split; [exact Hs|].
      rewrite (fetchPaginatedData_stops _ _ _ _ _ _ pages tr tr1 tr' H E Hs).
      now rewrite appendObjects_objectsOf.
    - apply Nat.ltb_ge in E. exists tr1. split; [reflexivity|].
      rewrite (fetchPaginatedData_full _ _ _ _ _ _ pages tr tr1 H); [|lia].
      now rewrite appendObjects_objectsOf. }
  destruct Hres as (tr' & Hend & Hfetch).
  exists pages, tr1, tr'. repeat split; try assumption.
  intros Hfull. rewrite Hfetch. cbn [fst].
  rewrite objectsOf_length. now apply full_pages_length.
Qed.

(** The records come back as they are on the pages: the seven bids of the
    sample node, and the trace of the two queries that got them. *)
Example fetchPaginatedData_records :
  fetchPaginatedData sampleNode sampleUnmarshal2 "swechaind" "issuemarket"
    "list-bid" "Bid" []
  = (sevenBids,
     [Started "swechaind" (pageArgs "issuemarket" "list-bid" 0);
      Slept requestDelay;
      Started "swechaind" (pageArgs "issuemarket" "list-bid" 50)]).
Proof. vm_compute. reflexivity. Qed.

Example fetchPaginatedData_150 :
  List.length
    (fst (fetchPaginatedData source150 sampleUnmarshal "swechaind"
            "issuemarket" "list-bid" "Bid" []))
  = 150%nat
  /\ started
       (snd (fetchPaginatedData source150 sampleUnmarshal "swechaind"
               "issuemarket" "list-bid" "Bid" []))
     = 4%nat.
Proof. split; vm_compute; reflexivity. Qed.

Example fetchPaginatedData_500 :
  List.length
    (fst (fetchPaginatedData sourceFull sampleUnmarshal "swechaind"
            "issuemarket" "list-bid" "Bid" []))
  = 500%nat
  /\ started
       (snd (fetchPaginatedData sourceFull sampleUnmarshal "swechaind"
               "issuemarket" "list-bid" "Bid" []))
     = 10%nat.
Proof. split; vm_compute; reflexivity. Qed.

Lemma replay_final (final : RunResult) (tr : Trace) (name : string)
    (arg : list string) :
  replay [] final tr name arg = final.
Proof. unfold replay. destruct (started tr); reflexivity. Qed.

(** A source that never yields an empty page need not yield 500 records:
    with one record a page the fetch ends with 10. *)
Lemma fetchPaginatedData_not_500 :
  ~ (forall exec Unmarshal swechaindCmd module query dataKey tr,
       (forall tr0 offset,
          exists results,
            pageOf Unmarshal dataKey
              (fst (runCommand exec swechaindCmd
                      (pageArgs module query offset) tr0))
            = Some results) ->
       List.length
         (fst (fetchPaginatedData exec Unmarshal swechaindCmd module query
                 dataKey tr))
       = 500%nat).
Proof.
  intros H.
  specialize (H sourceOne sampleUnmarshal "swechaind" "issuemarket" "list-bid"
                "Bid" []).
  assert (Hten : List.length
            (fst (fetchPaginatedData sourceOne sampleUnmarshal "swechaind"
                    "issuemarket" "list-bid" "Bid" [])) = 10%nat)
    by (vm_compute; reflexivity).
  rewrite Hten in H. enough (10 = 500)%nat by discriminate.
  apply H. intros tr0 offset. exists [JObject []].
  unfold runCommand. change (Z.to_nat maxRetries) with 3%nat.
  rewrite attempts_S. unfold sourceOne. rewrite replay_final.
  reflexivity.
Qed.

(** C4. When the query for page [N] fails, after [N - 1] pages, the fetch
    returns the records of these pages and no error. *)
Theorem fetchPaginatedData_partial
    (exec : Trace -> string -> list string -> RunResult)
    (Unmarshal : string -> result value)
    (swechaindCmd module query dataKey : string)
    (pages : list (list value)) (tr tr1 tr' : Trace) (r : result string) :
  PagesFrom exec Unmarshal swechaindCmd module query dataKey 0 tr pages tr1 ->
  (List.length pages < 10)%nat ->
  runCommand exec swechaindCmd (pageArgs module query (pageLimit * len pages)) tr1
  = (r, tr') ->
  pageFails Unmarshal r ->
  fetchPaginatedData exec Unmarshal swechaindCmd module query dataKey tr
  = (objectsOf (concat pages), tr').
Proof.
  intros H Hlen Hrun Hfail.
  rewrite (fetchPaginatedData_stops _ _ _ _ _ _ pages tr tr1 tr' H Hlen).
  - now rewrite appendObjects_objectsOf.
  - exists r. split; [exact Hrun|].
    destruct r as [output|e]; [|reflexivity].
    destruct Hfail as [e He]. cbn [pageOf]. now rewrite He.
Qed.

Lemma fetchPaginatedData_partial_witness :
  exists tr',
    fetchPaginatedData sourceLostBids sampleUnmarshal2 "swechaind" "issuemarket"
      "list-bid" "Bid" []
    = (sevenBids, tr').
Proof.
  eexists.
  apply (fetchPaginatedData_partial sourceLostBids sampleUnmarshal2 "swechaind"
           "issuemarket" "list-bid" "Bid"
           [[rawBid "1" "5token"; rawBid "2" "6token"; rawBid "1" "9token";
             rawBid "3" "1token"; rawBid "2" "8token"; rawBid "3" "2token";
             rawBid "1" "3token"]]
           []
           [Started "swechaind" (pageArgs "issuemarket" "list-bid" 0);
            Slept requestDelay]
           _
           (Err (failure "exit status 1" "" "connection refused"))).
  - apply (PagesCons _ _ _ _ _ _ 0 []
             [Started "swechaind" (pageArgs "issuemarket" "list-bid" 0)]
             _ (Ok (renderJson bidsAnswer)));
      [reflexivity|reflexivity|apply PagesNil].
  - simpl. lia.
  - vm_compute. reflexivity.
  - exact I.
Defined.

(** ** Parse errors *)

(** The fetch of a later page meets the text that is not JSON: the records
    of the page before it are returned all the same, so a malformed output
    does not always give an empty collection. *)
Lemma malformed_later_page :
  ~ (forall exec Unmarshal swechaindCmd module query dataKey pages tr tr1 tr'
       output e,
       PagesFrom exec Unmarshal swechaindCmd module query dataKey 0 tr pages tr1 ->
       (List.length pages < 10)%nat ->
       runCommand exec swechaindCmd
         (pageArgs module query (pageLimit * len pages)) tr1
       = (Ok output, tr') ->
       Unmarshal output = Err e ->
       fst (fetchPaginatedData exec Unmarshal swechaindCmd module query dataKey tr)
       = []).
Proof.
  intros H.
  specialize (H sourceGarbledLater sampleUnmarshal2 "swechaind" "issuemarket"
                "list-bid" "Bid"
                [[rawBid "1" "5token"; rawBid "2" "6token"; rawBid "1" "9token";
                  rawBid "3" "1token"; rawBid "2" "8token"; rawBid "3" "2token";
                  rawBid "1" "3token"]]
                []
                [Started "swechaind" (pageArgs "issuemarket" "list-bid" 0);
                 Slept requestDelay]
                [Started "swechaind" (pageArgs "issuemarket" "list-bid" 0);
                 Slept requestDelay;
                 Started "swechaind" (pageArgs "issuemarket" "list-bid" 50)]
                garbage
                "invalid character 'o' in literal null (expecting 'u')").
  assert (Hrecords :
            fst (fetchPaginatedData sourceGarbledLater sampleUnmarshal2
                   "swechaind" "issuemarket" "list-bid" "Bid" [])
            = sevenBids) by (vm_compute; reflexivity).
  rewrite Hrecords in H.
  enough (sevenBids = []) by discriminate.
  apply H.
  - apply (PagesCons _ _ _ _ _ _ 0 []
             [Started "swechaind" (pageArgs "issuemarket" "list-bid" 0)]
             _ (Ok (renderJson bidsAnswer)));
      [reflexivity|reflexivity|apply PagesNil].
  - simpl. lia.
  - vm_compute. reflexivity.
  - reflexivity.
Qed.

(** C9, as the code has it. On an output that is not JSON, which both
    decoders reject, [getKeys] and [fetchDenomOwners] return an empty
    collection and no error; [fetchPaginatedData] returns, and no error
    either, the records of the pages it got before that output, none when
    the output is that of the first query; [getAddressForKey] returns an
    error. *)
Theorem malformed_output
    (exec : Trace -> string -> list string -> RunResult)
    (Unmarshal : string -> result value)
    (UnmarshalKeys : string -> result (list Key))
    (swechaindCmd output e eKeys : string) :
  Unmarshal output = Err e ->
  UnmarshalKeys output = Err eKeys ->
  (forall tr tr',
     runCommand exec swechaindCmd
       ["keys"; "list"; "--keyring-backend"; "test"; "--output"; "json"] tr
     = (Ok output, tr') ->
     getKeys exec UnmarshalKeys swechaindCmd tr = ([], tr'))
  /\ (forall tr tr',
        runCommand exec swechaindCmd
          ["query"; "bank"; "denom-owners"; "token"; "--keyring-backend"; "test";
           "--output"; "json"] tr
        = (Ok output, tr') ->
        fetchDenomOwners exec Unmarshal swechaindCmd tr = ([], tr'))
  /\ (forall module query dataKey pages tr tr1 tr',
        PagesFrom exec Unmarshal swechaindCmd module query dataKey 0 tr pages tr1 ->
        (List.length pages < 10)%nat ->
        runCommand exec swechaindCmd
          (pageArgs module query (pageLimit * len pages)) tr1
        = (Ok output, tr') ->
        fetchPaginatedData exec Unmarshal swechaindCmd module query dataKey tr
        = (objectsOf (concat pages), tr'))
  /\ (forall module query dataKey tr tr',
        runCommand exec swechaindCmd (pageArgs module query 0) tr
        = (Ok output, tr') ->
        fetchPaginatedData exec Unmarshal swechaindCmd module query dataKey tr
        = ([], tr'))
  /\ (forall keyName tr tr',
        runCommand exec swechaindCmd
          ["keys"; "show"; keyName; "--keyring-backend"; "test"; "--output";
           "json"] tr
        = (Ok output, tr') ->
        getAddressForKey exec Unmarshal swechaindCmd keyName tr
        = (Err ("failed to parse key data: " ++ e), tr')).
Proof.
  intros Hbad HbadKeys.
  assert (Hobj : unmarshalObject Unmarshal output = Err e)
    by (unfold unmarshalObject; now rewrite Hbad).
  assert (Hpages : forall module query dataKey pages tr tr1 tr',
            PagesFrom exec Unmarshal swechaindCmd module query dataKey 0 tr
              pages tr1 ->
            (List.length pages < 10)%nat ->
            runCommand exec swechaindCmd
              (pageArgs module query (pageLimit * len pages)) tr1
            = (Ok output, tr') ->
            fetchPaginatedData exec Unmarshal swechaindCmd module query dataKey tr
            = (objectsOf (concat pages), tr')).
  { intros module query dataKey pages tr tr1 tr' H Hlen Hrun.
    rewrite (fetchPaginatedData_stops _ _ _ _ _ _ pages tr tr1 tr' H Hlen).
    - now rewrite appendObjects_objectsOf.
    - exists (Ok output). split; [exact Hrun|]. cbn [pageOf]. now rewrite Hobj. }
  split; [|split; [|split; [|split]]].
  - intros tr tr' Hrun. unfold getKeys, bind. rewrite Hrun. now rewrite HbadKeys.
  - intros tr tr' Hrun. unfold fetchDenomOwners, bind. rewrite Hrun.
    now rewrite Hobj.
  - exact Hpages.
  - intros module query dataKey tr tr' Hrun.
    apply (Hpages module query dataKey [] tr tr tr');
      [constructor|simpl; lia|exact Hrun].
  - intros keyName tr tr' Hrun. unfold getAddressForKey, bind. rewrite Hrun.
    now rewrite Hobj.
Qed.

Lemma malformed_output_witness :
  getKeys sourceGarbage sampleUnmarshalKeys "swechaind" []
  = ([], [Started "swechaind"
            ["keys"; "list"; "--keyring-backend"; "test"; "--output"; "json"]])
  /\ fst (fetchDenomOwners sourceGarbage sampleUnmarshal2 "swechaind" []) = []
  /\ fst (fetchPaginatedData sourceGarbledLater sampleUnmarshal2 "swechaind"
            "issuemarket" "list-bid" "Bid" [])
     = sevenBids
  /\ fetchPaginatedData sourceGarbage sampleUnmarshal2 "swechaind" "issuemarket"
       "list-auction" "Auction" []
     = ([], [Started "swechaind" (pageArgs "issuemarket" "list-auction" 0)])
  /\ fst (getAddressForKey sourceGarbage sampleUnmarshal2 "swechaind" "alice" [])
     = Err "failed to parse key data: invalid character 'o' in literal null (expecting 'u')".
Proof.
  destruct (malformed_output sourceGarbage sampleUnmarshal2 sampleUnmarshalKeys
              "swechaind" garbage
              "invalid character 'o' in literal null (expecting 'u')"
              "invalid character 'o' in literal null (expecting 'u')"
              eq_refl eq_refl) as (Hkeys & Howners & _ & Hfirst & Hkey).
  destruct (malformed_output sourceGarbledLater sampleUnmarshal2
              sampleUnmarshalKeys "swechaind" garbage
              "invalid character 'o' in literal null (expecting 'u')"
              "invalid character 'o' in literal null (expecting 'u')"
              eq_refl eq_refl) as (_ & _ & Hlater & _).
  split; [|split; [|split; [|split]]].
  - apply Hkeys. reflexivity.
  - rewrite (Howners []
               [Started "swechaind"
                  ["query"; "bank"; "denom-owners"; "token"; "--keyring-backend";
                   "test"; "--output"; "json"]]); reflexivity.
  - rewrite (Hlater "issuemarket" "list-bid" "Bid"
               [[rawBid "1" "5token"; rawBid "2" "6token"; rawBid "1" "9token";
                 rawBid "3" "1token"; rawBid "2" "8token"; rawBid "3" "2token";
                 rawBid "1" "3token"]]
               []
               [Started "swechaind" (pageArgs "issuemarket" "list-bid" 0);
                Slept requestDelay]
               [Started "swechaind" (pageArgs "issuemarket" "list-bid" 0);
                Slept requestDelay;
                Started "swechaind" (pageArgs "issuemarket" "list-bid" 50)]).
    + reflexivity.
    + apply (PagesCons _ _ _ _ _ _ 0 []
               [Started "swechaind" (pageArgs "issuemarket" "list-bid" 0)]
               _ (Ok (renderJson bidsAnswer)));
        [reflexivity|reflexivity|apply PagesNil].
    + simpl. lia.
    + vm_compute. reflexivity.
  - apply Hfirst. reflexivity.
  - rewrite (Hkey "alice" []
               [Started "swechaind"
                  ["keys"; "show"; "alice"; "--keyring-backend"; "test";
                   "--output"; "json"]]); reflexivity.
Defined.

(** ** Tool handlers *)

(** C10. A successful [get-balance] sums up the first balance only, as
    [Address X has <amount> <denom>], and [0 token] when there is no balance;
    the details carry the whole list. *)
Theorem getBalanceHandler_summary
    (exec : Trace -> string -> list string -> RunResult)
    (Unmarshal : string -> result value) (swechaindCmd : string)
    (params : GetBalanceParams) (tr tr' : Trace) (balances : list Balance) :
  let address := Go.TrimSpace (GetBalance_Address params) in
  isValidCosmosAddress address = true ->
  getBalanceForAddress exec Unmarshal swechaindCmd address tr = (Ok balances, tr') ->
  getBalanceHandler exec Unmarshal swechaindCmd params tr
  = (Marshalled
       {| BalanceResponse_Summary := balanceSummary address (hd_error balances);
          BalanceResponse_Address := address;
          BalanceResponse_Balances := balances |},
     tr')
  /\ balanceSummary address None = "Address " ++ address ++ " has 0 token"
  /\ (forall b rest,
        balances = b :: rest ->
        balanceSummary address (hd_error balances)
        = "Address " ++ address ++ " has " ++ Balance_Amount b ++ " "
          ++ Balance_Denom b).
Proof.
  intros address Hvalid Hget. split; [|split].
  - unfold getBalanceHandler. fold address.
    destruct (String.eqb_spec address "") as [E|_].
    + rewrite E in Hvalid. discriminate.
    + rewrite Hvalid. cbn [negb]. unfold bind. rewrite Hget.
      destruct balances as [|b rest]; reflexivity.
  - reflexivity.
  - intros b rest ->. reflexivity.
Qed.

Lemma getBalanceHandler_summary_witness :
  fst (getBalanceHandler sourceBalances sampleUnmarshal "swechaind"
         {| GetBalance_Address := "  " ++ address40 ++ nl |} [])
  = Marshalled
      {| BalanceResponse_Summary :=
           "Address cosmos1abcdefghijklmnopqrstuvwxyz0123456 has 12 token";
         BalanceResponse_Address := address40;
         BalanceResponse_Balances :=
           [{| Balance_Denom := "token"; Balance_Amount := "12" |};
            {| Balance_Denom := "stake"; Balance_Amount := "7" |}] |}.
Proof.
  destruct (getBalanceHandler_summary sourceBalances sampleUnmarshal "swechaind"
              {| GetBalance_Address := "  " ++ address40 ++ nl |} []
              [Started "swechaind"
                 ["query"; "bank"; "balances"; address40; "--keyring-backend";
                  "test"; "--output"; "json"]]
              [{| Balance_Denom := "token"; Balance_Amount := "12" |};
               {| Balance_Denom := "stake"; Balance_Amount := "7" |}]
              eq_refl eq_refl) as (H & _).
  now rewrite H.
Defined.

Section Validation.

Variable exec : Trace -> string -> list string -> RunResult.
Variable Unmarshal : string -> result value.
Variable swechaindCmd : string.

Lemma fetchPages_extends (module query dataKey : string) (fuel : nat) :
  forall offset acc tr,
    exists rest,
      snd (fetchPages exec Unmarshal swechaindCmd module query dataKey fuel
             offset acc tr)
      = (tr ++ rest)%list.
Proof.
  induction fuel as [|fuel IH]; intros offset acc tr.
  - exists []. simpl. now rewrite app_nil_r.
  - rewrite fetchPages_S.
    destruct (offset / pageLimit <? maxPages);
      [|exists []; simpl; now rewrite app_nil_r].
    destruct (runCommand_starts exec swechaindCmd
                (pageArgs module query offset) tr) as [rest1 H1].
    destruct (runCommand exec swechaindCmd (pageArgs module query offset) tr)
      as [r tr1].
    cbn [snd] in H1. subst tr1.
    destruct (pageOf Unmarshal dataKey r) as [results|].
    + match goal with
      | |- context [fetchPages _ _ _ _ _ _ _ ?o ?a ?t] =>
          destruct (IH o a t) as [rest2 H2]; rewrite H2
      end.
      rewrite <- !app_assoc. eexists. reflexivity.
    + eexists. reflexivity.
Qed.

(** A fetch starts its first query whatever comes after. *)
Lemma fetchPaginatedData_starts (module query dataKey : string) (tr : Trace) :
  exists rest,
    snd (fetchPaginatedData exec Unmarshal swechaindCmd module query dataKey tr)
    = (tr ++ Started swechaindCmd (pageArgs module query 0) :: rest)%list.
Proof.
  unfold fetchPaginatedData. change (Z.to_nat maxPages) with 10%nat.
  rewrite fetchPages_S. change (0 / pageLimit <? maxPages) with true. cbv iota.
  destruct (runCommand_starts exec swechaindCmd (pageArgs module query 0) tr)
    as [rest1 H1].
  destruct (runCommand exec swechaindCmd (pageArgs module query 0) tr) as [r tr1].
  cbn [snd] in H1. subst tr1.
  destruct (pageOf Unmarshal dataKey r) as [results|].
  - match goal with
    | |- context [fetchPages _ _ _ _ _ _ ?f ?o ?a ?t] =>
        destruct (fetchPages_extends module query dataKey f o a t) as [rest2 H2];
        rewrite H2
    end.
    rewrite <- !app_assoc. eexists. reflexivity.
  - eexists. reflexivity.
Qed.

(** [create-bid] checks all of its arguments before it runs the command: a
    call it rejects starts no process. *)
Lemma createBidHandler_validates (params : CreateBidParams) (tr : Trace) :
  let auctionId := Go.TrimSpace (CreateBid_AuctionId params) in
  let bidder := Go.TrimSpace (CreateBid_Bidder params) in
  let from := Go.TrimSpace (CreateBid_From params) in
  auctionId = "" \/ bidder = "" \/ from = ""
  \/ isValidCosmosAddress bidder = false \/ isValidCosmosAddress from = false
  \/ snd (Go.Atoi auctionId) <> None ->
  exists msg,
    createBidHandler exec swechaindCmd params tr = ("Error: " ++ msg, tr).
Proof.
  intros auctionId bidder from H. unfold createBidHandler.
  fold auctionId bidder from.
  destruct (String.eqb_spec auctionId ""); [eexists; reflexivity|].
  destruct (String.eqb_spec bidder ""); [eexists; reflexivity|].
  destruct (String.eqb_spec from ""); [eexists; reflexivity|].
  destruct (isValidCosmosAddress bidder); [|eexists; reflexivity].
  destruct (isValidCosmosAddress from); [|eexists; reflexivity].
  destruct (snd (Go.Atoi auctionId)); [eexists; reflexivity|].
  destruct H as [H|[H|[H|[H|[H|H]]]]]; congruence.
Qed.

(** [query-bids-for-auction] rejects an empty identifier at once. *)
Lemma queryBidsForAuctionHandler_empty (params : QueryBidsForAuctionParams)
    (tr : Trace) :
  Go.TrimSpace (QueryBids_AuctionId params) = "" ->
  exists msg,
    queryBidsForAuctionHandler exec Unmarshal swechaindCmd params tr
    = (Text ("Error: " ++ msg), tr).
Proof.
  intros H. unfold queryBidsForAuctionHandler. rewrite H.
  eexists. reflexivity.
Qed.

(** An identifier that is neither a number nor [all] is rejected too, but
    only after the bids were fetched. *)
Lemma queryBidsForAuctionHandler_invalid (params : QueryBidsForAuctionParams)
    (tr : Trace) :
  let auctionId := Go.TrimSpace (QueryBids_AuctionId params) in
  auctionId <> "" -> Go.ToLower auctionId <> "all" ->
  snd (Go.Atoi auctionId) <> None ->
  exists rest,
    queryBidsForAuctionHandler exec Unmarshal swechaindCmd params tr
    = (Text ("Error: invalid auctionId '" ++ auctionId
             ++ "'. Must be a number or 'all'."),
       (tr ++ Started swechaindCmd (pageArgs "issuemarket" "list-bid" 0) :: rest)%list).
Proof.
  intros auctionId Hne Hall Hnum. unfold queryBidsForAuctionHandler.
  fold auctionId.
  destruct (String.eqb_spec auctionId ""); [contradiction|].
  destruct (String.eqb_spec (Go.ToLower auctionId) "all"); [contradiction|].
  cbn [negb]. unfold bind.
  destruct (fetchPaginatedData_starts "issuemarket" "list-bid" "Bid" tr)
    as [rest Hrest].
  destruct (fetchPaginatedData exec Unmarshal swechaindCmd "issuemarket"
              "list-bid" "Bid" tr) as [rawBids tr1].
  cbn [snd] in Hrest. subst tr1.
  destruct (Go.Atoi auctionId) as [auctionIdInt [err|]]; [|now elim Hnum].
  exists rest. reflexivity.
Qed.

(** C5, at the identifier [abc]. Whatever the node answers,
    [query-bids-for-auction] starts the query for the first page of bids
    before it rejects the identifier. *)
Theorem queryBidsForAuctionHandler_abc (tr : Trace) :
  exists rest,
    queryBidsForAuctionHandler exec Unmarshal swechaindCmd
      {| QueryBids_AuctionId := "abc" |} tr
    = (Text "Error: invalid auctionId 'abc'. Must be a number or 'all'.",
       (tr ++ Started swechaindCmd (pageArgs "issuemarket" "list-bid" 0) :: rest)%list).
Proof.
  apply (queryBidsForAuctionHandler_invalid {| QueryBids_AuctionId := "abc" |});
    discriminate.
Qed.

End Validation.

(** * Further properties *)

(** ** Command runner *)

Lemma started_app (tr1 tr2 : Trace) :
  started (tr1 ++ tr2) = (started tr1 + started tr2)%nat.
Proof. unfold started. now rewrite filter_app, length_app. Qed.

Section RunCommandShape.

Variable exec : Trace -> string -> list string -> RunResult.
Variables (name : string) (arg : list string).

Lemma runCommand_shape (tr : Trace) :
  exists events,
    snd (runCommand exec name arg tr) = (tr ++ events)%list
    /\ runsOnly name arg events
    /\ (1 <= started events <= 3)%nat
    /\ 0 <= slept events <= 3 * Second.
Proof.
  assert (Hshape : forall events,
            In events [[Started name arg];
                       [Started name arg; Slept ((0 + 1) * Second);
                        Started name arg];
                       [Started name arg; Slept ((0 + 1) * Second);
                        Started name arg; Slept ((0 + 1 + 1) * Second);
                        Started name arg]] ->
            runsOnly name arg events
            /\ (1 <= started events <= 3)%nat
            /\ 0 <= slept events <= 3 * Second).
  { intros events [<-|[<-|[<-|[]]]]; (split; [|split]);
      try (unfold started; simpl; lia);
      try (unfold Second, Millisecond; simpl; lia);
      unfold runsOnly;
      repeat (apply Forall_cons;
              [first [left; reflexivity|right; eexists; reflexivity]|]);
      apply Forall_nil. }
  unfold runCommand. change (Z.to_nat maxRetries) with 3%nat.
  rewrite attempts_S.
  destruct (exec tr name arg) as [o1 e1|x1 o1 e1].
  { eexists. split; [reflexivity|]. apply Hshape. simpl. tauto. }
  change (0 <? maxRetries - 1) with true. cbv iota.
  rewrite attempts_S.
  destruct (exec _ name arg) as [o2 e2|x2 o2 e2].
  { eexists. split; [cbn [snd]; rewrite <- app_assoc; reflexivity|].
    apply Hshape. simpl. tauto. }
  change (0 + 1 <? maxRetries - 1) with true. cbv iota.
  rewrite attempts_S.
  destruct (exec _ name arg) as [o3 e3|x3 o3 e3].
  { eexists. split; [cbn [snd]; rewrite <- !app_assoc; reflexivity|].
    apply Hshape. simpl. tauto. }
  change (0 + 1 + 1 <? maxRetries - 1) with false. cbv iota.
  eexists. split; [cbn [attempts ret snd]; rewrite <- !app_assoc; reflexivity|].
  apply Hshape. simpl. tauto.
Qed.

(** X1. Whatever the world does, [runCommand] starts the command it is given
    one to three times and nothing else, and sleeps 3 seconds at most. *)
Theorem runCommand_bounded (tr : Trace) :
  exists events,
    snd (runCommand exec name arg tr) = (tr ++ events)%list
    /\ runsOnly name arg events
    /\ (1 <= started events <= 3)%nat
    /\ 0 <= slept events <= 3 * Second.
Proof. apply runCommand_shape. Qed.

(** X2. When all three attempts fail, [runCommand] returns the error of the
    last one, with its output; it slept 1 and 2 seconds between the attempts
    and does not sleep after the last. *)
Theorem runCommand_exhausted (tr : Trace) (err out errout : string) :
  (forall j, (j < 2)%nat ->
     exists err out errout,
       exec (retryTrace name arg tr j) name arg = Failed err out errout) ->
  exec (retryTrace name arg tr 2) name arg = Failed err out errout ->
  runCommand exec name arg tr
  = (Err ("command failed: " ++ err ++ nl ++ "STDOUT: " ++ out ++ nl
          ++ "STDERR: " ++ errout),
     (tr ++ [Started name arg; Slept Second; Started name arg;
             Slept (2 * Second); Started name arg])%list).
Proof.
  intros Hfail Hlast.
  destruct (Hfail 0%nat) as (e0 & o0 & s0 & H0); [lia|].
  destruct (Hfail 1%nat) as (e1 & o1 & s1 & H1); [lia|].
  cbn [retryTrace] in H0, H1, Hlast.
  unfold runCommand. change (Z.to_nat maxRetries) with 3%nat.
  rewrite attempts_S, H0. change (0 <? maxRetries - 1) with true. cbv iota.
  change ((0 + 1) * Second) with (Z.of_nat 1 * Second).
  rewrite attempts_S, H1. change (0 + 1 <? maxRetries - 1) with true. cbv iota.
  change ((0 + 1 + 1) * Second) with (Z.of_nat 2 * Second).
  rewrite attempts_S, Hlast.
  change (0 + 1 + 1 <? maxRetries - 1) with false. cbv iota.
  cbn [attempts ret]. rewrite <- !app_assoc. reflexivity.
Qed.

(** On a node out of reach every command ends in an error. *)
Lemma runCommand_unreachable (tr : Trace) :
  unreachable exec ->
  exists e tr', runCommand exec name arg tr = (Err e, tr').
Proof.
  intros Hdead. unfold runCommand. change (Z.to_nat maxRetries) with 3%nat.
  rewrite attempts_S.
  destruct (Hdead tr name arg) as (x1 & o1 & e1 & ->).
  rewrite attempts_S.
  match goal with |- context [exec ?t name arg] =>
    destruct (Hdead t name arg) as (x2 & o2 & e2 & ->) end.
  rewrite attempts_S.
  match goal with |- context [exec ?t name arg] =>
    destruct (Hdead t name arg) as (x3 & o3 & e3 & ->) end.
  cbn [attempts ret]. eexists. eexists. reflexivity.
Qed.

End RunCommandShape.

Lemma runCommand_exhausted_witness :
  runCommand (replay [] refused) "swechaind" ["status"] []
  = (Err ("command failed: exit status 1" ++ nl ++ "STDOUT: " ++ nl
          ++ "STDERR: connection refused"),
     [Started "swechaind" ["status"]; Slept Second;
      Started "swechaind" ["status"]; Slept (2 * Second);
      Started "swechaind" ["status"]]).
Proof.
  apply (runCommand_exhausted (replay [] refused) "swechaind" ["status"] []
           "exit status 1" "" "connection refused").
  - intros j Hj. exists "exit status 1", "", "connection refused".
    apply replay_final.
  - reflexivity.
Defined.

(** ** Paginated fetch *)

Lemma pageEvents_app (swechaindCmd module query : string) (e1 e2 : Trace) :
  pageEvents swechaindCmd module query e1 ->
  pageEvents swechaindCmd module query e2 ->
  pageEvents swechaindCmd module query (e1 ++ e2).
Proof. unfold pageEvents. intros H1 H2. apply Forall_app. now split. Qed.

Lemma runsOnly_pageEvents (swechaindCmd module query : string) (i : Z)
    (events : Trace) :
  0 <= i < maxPages ->
  runsOnly swechaindCmd (pageArgs module query (pageLimit * i)) events ->
  pageEvents swechaindCmd module query events.
Proof.
  intros Hi. unfold runsOnly, pageEvents. apply Forall_impl.
  intros e [->|[d ->]]; [right; exists i; now split|left; now exists d].
Qed.

Section FetchShape.

Variable exec : Trace -> string -> list string -> RunResult.
Variable Unmarshal : string -> result value.
Variable swechaindCmd : string.
Variables module query dataKey : string.

Lemma fetchPages_shape (fuel : nat) :
  forall i acc tr,
    0 <= i ->
    exists events,
      snd (fetchPages exec Unmarshal swechaindCmd module query dataKey fuel
             (pageLimit * i) acc tr)
      = (tr ++ events)%list
      /\ pageEvents swechaindCmd module query events
      /\ (started events <= 3 * fuel)%nat
      /\ 0 <= slept events <= Z.of_nat fuel * (3 * Second + requestDelay).
Proof.
  induction fuel as [|fuel IH]; intros i acc tr Hi.
  - exists []. cbn [fetchPages ret snd]. rewrite app_nil_r.
    split; [reflexivity|]. split; [constructor|].
    split; [unfold started; simpl; lia|]. simpl. lia.
  - rewrite fetchPages_S.
    replace (pageLimit * i / pageLimit) with i
      by (unfold pageLimit; rewrite Z.mul_comm, Z.div_mul; lia).
    assert (Hdelay : 0 <= 3 * Second + requestDelay)
      by (unfold Second, requestDelay, Millisecond; lia).
    destruct (i <? maxPages) eqn:E.
    + apply Z.ltb_lt in E.
      destruct (runCommand_shape exec swechaindCmd
                  (pageArgs module query (pageLimit * i)) tr)
        as (ev1 & Htr1 & Hruns & Hst1 & Hsl1).
      destruct (runCommand exec swechaindCmd
                  (pageArgs module query (pageLimit * i)) tr) as [r tr1].
      cbn [snd] in Htr1. subst tr1.
      apply (runsOnly_pageEvents _ module query i) in Hruns; [|lia].
      destruct (pageOf Unmarshal dataKey r) as [results|].
      * replace (pageLimit * i + pageLimit) with (pageLimit * (i + 1)) by lia.
        destruct (IH (i + 1) (appendObjects acc results)
                    ((tr ++ ev1) ++ [Slept requestDelay])%list)
          as (ev2 & Htr2 & Hpages & Hst2 & Hsl2); [lia|].
        exists (ev1 ++ [Slept requestDelay] ++ ev2)%list.
        rewrite Htr2, <- !app_assoc. split; [reflexivity|].
        split; [|split].
        -- apply pageEvents_app; [exact Hruns|].
           apply pageEvents_app; [|exact Hpages].
           constructor; [left; eexists; reflexivity|constructor].
        -- rewrite !started_app. unfold started at 2. simpl. lia.
        -- rewrite !slept_app. cbn [slept].
           unfold requestDelay, Second, Millisecond in *. lia.
      * exists ev1. cbn [snd]. split; [reflexivity|].
        split; [exact Hruns|]. split; [lia|].
        unfold requestDelay, Second, Millisecond in *. lia.
    + exists []. cbn [snd]. rewrite app_nil_r.
      split; [reflexivity|]. split; [constructor|].
      split; [unfold started; simpl; lia|]. cbn [slept].
      unfold requestDelay, Second, Millisecond in *. lia.
Qed.

(** X3. A fetch starts 30 processes at most, each of them the query for a
    page at one of the offsets 0, 50, ..., 450, and sleeps 35 seconds at
    most. *)
Theorem fetchPaginatedData_bounded (tr : Trace) :
  exists events,
    snd (fetchPaginatedData exec Unmarshal swechaindCmd module query dataKey tr)
    = (tr ++ events)%list
    /\ pageEvents swechaindCmd module query events
    /\ (started events <= 30)%nat
    /\ 0 <= slept events <= 35 * Second.
Proof.
  unfold fetchPaginatedData. change 0 with (pageLimit * 0) at 1.
  destruct (fetchPages_shape (Z.to_nat maxPages) 0 [] tr)
    as (events & Htr & Hpages & Hst & Hsl); [lia|].
  exists events. split; [exact Htr|]. split; [exact Hpages|].
  change (Z.to_nat maxPages) with 10%nat in *.
  split; [lia|]. unfold requestDelay, Second, Millisecond in *. lia.
Qed.

(** On a node out of reach a fetch gives up after its first query. *)
Lemma fetchPaginatedData_unreachable (tr : Trace) :
  unreachable exec ->
  exists tr',
    fetchPaginatedData exec Unmarshal swechaindCmd module query dataKey tr
    = ([], tr').
Proof.
  intros Hdead. unfold fetchPaginatedData.
  change (Z.to_nat maxPages) with 10%nat. rewrite fetchPages_S.
  change (0 / pageLimit <? maxPages) with true. cbv iota.
  destruct (runCommand_unreachable exec swechaindCmd (pageArgs module query 0)
              tr Hdead) as (e & tr' & ->).
  exists tr'. reflexivity.
Qed.

End FetchShape.

(** ** Participants *)

Lemma substring_middle (pre mid post : string) :
  substring (String.length pre) (String.length mid) (pre ++ mid ++ post) = mid.
Proof.
  induction pre as [|c pre IH]; [|exact IH].
  cbn [String.length String.append].
  induction mid as [|c mid IH]; [destruct post; reflexivity|].
  cbn [String.length String.append substring]. now rewrite IH.
Qed.

Lemma length_append (s t : string) :
  String.length (s ++ t) = (String.length s + String.length t)%nat.
Proof. induction s as [|c s IH]; simpl; [reflexivity|now rewrite IH]. Qed.

(** X4. The display name of an address of 12 bytes or more is its bytes 7 to
    11, for a [cosmos1] address the five bytes after the prefix; a shorter
    address is its own name. *)
Theorem extractNameFromAddress_spec :
  (forall pre name post,
     String.length pre = 7%nat -> String.length name = 5%nat ->
     extractNameFromAddress (pre ++ name ++ post) = name)
  /\ (forall address,
        (String.length address < 12)%nat ->
        extractNameFromAddress address = address).
Proof.
  split.
  - intros pre name post Hpre Hname. unfold extractNameFromAddress.
    rewrite !length_append, Hpre, Hname.
    change (12 <=? 7 + (5 + String.length post))%nat with true.
    rewrite <- Hpre, <- Hname. apply substring_middle.
  - intros address H. unfold extractNameFromAddress.
    apply Nat.leb_gt in H. now rewrite H.
Qed.

Lemma extractNameFromAddress_witness :
  extractNameFromAddress address40 = "abcde"
  /\ extractNameFromAddress "cosmos1abc" = "cosmos1abc".
Proof.
  destruct extractNameFromAddress_spec as [Hlong Hshort]. split.
  - apply (Hlong "cosmos1" "abcde" "fghijklmnopqrstuvwxyz0123456"); reflexivity.
  - apply Hshort. simpl. lia.
Defined.

Lemma participantsFrom_spec (owners : list DenomOwner) :
  forall participants,
    participantsFrom participants owners
    = (participants ++ map participant owners)%list.
Proof.
  induction owners as [|o rest IH]; intros acc; simpl.
  - now rewrite app_nil_r.
  - now rewrite IH, <- app_assoc.
Qed.

(** X5. The participants of a summary are the token holders, one for one
    and in their order, whatever the auctions, the bids and the mode; each
    keeps its address and shows its balance as amount and denomination. *)
Theorem buildAuctionSummaryResponse_participants
    (auctions : list Auction) (bids : list Bid) (owners : list DenomOwner)
    (auctionType : string) :
  Forall2
    (fun o p =>
       ParticipantDetail_Address p = DenomOwner_Address o
       /\ ParticipantDetail_Name p = extractNameFromAddress (DenomOwner_Address o)
       /\ ParticipantDetail_Balance p
          = Balance_Amount (DenomOwner_Balance o) ++ " "
            ++ Balance_Denom (DenomOwner_Balance o))
    owners
    (AuctionSummary_Participants
       (buildAuctionSummaryResponse auctions bids owners auctionType)).
Proof.
  unfold buildAuctionSummaryResponse. cbn [AuctionSummary_Participants].
  rewrite participantsFrom_spec. cbn [app].
  induction owners as [|o rest IH]; simpl; constructor; [|exact IH].
  repeat split.
Qed.

(** ** Single-record lookups *)

Section Lookups.

Variable exec : Trace -> string -> list string -> RunResult.
Variable Unmarshal : string -> result value.
Variable swechaindCmd : string.

(** X6. An address [getAddressForKey] returns is a valid one; a key record
    without a text under [address] is an error. *)
Theorem getAddressForKey_valid (keyName : string) (tr : Trace) :
  (forall address tr',
     getAddressForKey exec Unmarshal swechaindCmd keyName tr = (Ok address, tr') ->
     isValidCosmosAddress address = true)
  /\ (forall output keyData tr',
        runCommand exec swechaindCmd
          ["keys"; "show"; keyName; "--keyring-backend"; "test"; "--output";
           "json"] tr
        = (Ok output, tr') ->
        unmarshalObject Unmarshal output = Ok keyData ->
        asString (index keyData "address") = None ->
        getAddressForKey exec Unmarshal swechaindCmd keyName tr
        = (Err "address not found in key data", tr')).
Proof.
  split.
  - intros address tr'. unfold getAddressForKey, bind.
    destruct (runCommand _ _ _ tr) as [[output|e] tr1]; [|discriminate].
    destruct (unmarshalObject Unmarshal output) as [keyData|e]; [|discriminate].
    destruct (asString (index keyData "address")) as [a|]; [|discriminate].
    destruct (isValidCosmosAddress a) eqn:E; [|discriminate].
    cbn [negb ret]. intros H. injection H as <- _. exact E.
  - intros output keyData tr' Hrun Hobj Hnone.
    unfold getAddressForKey, bind. now rewrite Hrun, Hobj, Hnone.
Qed.

Lemma balancesFrom_spec (rawBalances : list value) :
  forall balances,
    balancesFrom balances rawBalances
    = (balances ++ map balanceOf (objectsOf rawBalances))%list.
Proof.
  induction rawBalances as [|raw rest IH]; intros acc; simpl.
  - now rewrite app_nil_r.
  - destruct raw; simpl; rewrite IH; try reflexivity.
    now rewrite <- app_assoc.
Qed.

(** X7. From a decoded answer [getBalanceForAddress] returns one balance
    for each object of the array under [balances], in order, and passes over
    the other elements; without an array there it returns no balance and no
    error. *)
Theorem getBalanceForAddress_spec (address output : string)
    (responseData : object) (tr tr' : Trace) :
  runCommand exec swechaindCmd
    ["query"; "bank"; "balances"; address; "--keyring-backend"; "test";
     "--output"; "json"] tr
  = (Ok output, tr') ->
  unmarshalObject Unmarshal output = Ok responseData ->
  getBalanceForAddress exec Unmarshal swechaindCmd address tr
  = (Ok match asArray (index responseData "balances") with
        | Some rawBalances => map balanceOf (objectsOf rawBalances)
        | None => []
        end,
     tr').
Proof.
  intros Hrun Hobj. unfold getBalanceForAddress, bind.
  rewrite Hrun, Hobj.
  destruct (asArray (index responseData "balances")); [|reflexivity].
  now rewrite balancesFrom_spec.
Qed.

End Lookups.

Lemma getAddressForKey_valid_witness :
  getAddressForKey sourceNoAddress sampleUnmarshal2 "swechaind" "alice" []
  = (Err "address not found in key data",
     [Started "swechaind"
        ["keys"; "show"; "alice"; "--keyring-backend"; "test"; "--output"; "json"]])
  /\ (getAddressForKey sampleNode sampleUnmarshal2 "swechaind" "alice" []
      = (Ok address40,
         [Started "swechaind"
            ["keys"; "show"; "alice"; "--keyring-backend"; "test"; "--output";
             "json"]])
      /\ isValidCosmosAddress address40 = true).
Proof.
  split.
  - destruct (getAddressForKey_valid sourceNoAddress sampleUnmarshal2 "swechaind"
                "alice" []) as [_ H].
    apply (H (renderJson keyAnswerNoAddress) [("name", JString "alice")]);
      reflexivity.
  - assert (Hrun : getAddressForKey sampleNode sampleUnmarshal2 "swechaind"
                     "alice" []
                   = (Ok address40,
                      [Started "swechaind"
                         ["keys"; "show"; "alice"; "--keyring-backend"; "test";
                          "--output"; "json"]])) by reflexivity.
    split; [exact Hrun|].
    destruct (getAddressForKey_valid sampleNode sampleUnmarshal2 "swechaind"
                "alice" []) as [H _].
    exact (H _ _ Hrun).
Defined.

Lemma getBalanceForAddress_spec_witness :
  getBalanceForAddress sourceBalances sampleUnmarshal "swechaind" address40 []
  = (Ok [{| Balance_Denom := "token"; Balance_Amount := "12" |};
         {| Balance_Denom := "stake"; Balance_Amount := "7" |}],
     [Started "swechaind"
        ["query"; "bank"; "balances"; address40; "--keyring-backend"; "test";
         "--output"; "json"]]).
Proof.
  apply (getBalanceForAddress_spec sourceBalances sampleUnmarshal "swechaind"
           address40 balancesText
           [("balances",
             JArray [JObject [("denom", JString "token"); ("amount", JString "12")];
                     JObject [("denom", JString "stake"); ("amount", JString "7")]])]);
    reflexivity.
Defined.

(** ** Transactions *)

Lemma valid_nonempty (s : string) : isValidCosmosAddress s = true -> s <> "".
Proof. intros H ->. discriminate. Qed.

Section Transactions.

Variable exec : Trace -> string -> list string -> RunResult.
Variable swechaindCmd : string.

(** X8. [create-bid] starts no process unless both addresses are valid and
    the auction identifier is a number; it then runs the transaction, one to
    three times and nothing else, with [100token] for an empty amount and a
    description made from the identifier for an empty description. *)
Theorem createBidHandler_spec (params : CreateBidParams) (tr : Trace) :
  let auctionId := Go.TrimSpace (CreateBid_AuctionId params) in
  let bidder := Go.TrimSpace (CreateBid_Bidder params) in
  let from := Go.TrimSpace (CreateBid_From params) in
  let amount := Go.TrimSpace (CreateBid_Amount params) in
  let description := Go.TrimSpace (CreateBid_Description params) in
  (isValidCosmosAddress bidder = false \/ isValidCosmosAddress from = false
   \/ snd (Go.Atoi auctionId) <> None ->
   exists msg,
     createBidHandler exec swechaindCmd params tr = ("Error: " ++ msg, tr))
  /\ (isValidCosmosAddress bidder = true ->
      isValidCosmosAddress from = true ->
      snd (Go.Atoi auctionId) = None ->
      exists events,
        snd (createBidHandler exec swechaindCmd params tr) = (tr ++ events)%list
        /\ runsOnly swechaindCmd
             (["tx"; "issuemarket"; "create-bid"; auctionId; bidder;
               if String.eqb amount "" then "100token" else amount;
               if String.eqb description "" then "Bid for auction " ++ auctionId
               else description] ++ txFlags from)
             events
        /\ (1 <= started events <= 3)%nat).
Proof.
  intros auctionId bidder from amount description. split.
  - intros H. apply createBidHandler_validates. tauto.
  - intros Hbidder Hfrom Hnum.
    unfold createBidHandler.
    fold auctionId bidder from amount description.
    destruct (String.eqb_spec auctionId "") as [E|_];
      [rewrite E in Hnum; discriminate|].
    destruct (String.eqb_spec bidder "") as [E|_];
      [now apply valid_nonempty in Hbidder|].
    destruct (String.eqb_spec from "") as [E|_];
      [now apply valid_nonempty in Hfrom|].
    rewrite Hbidder, Hfrom, Hnum. cbn [negb]. unfold bind.
    match goal with |- context [runCommand exec swechaindCmd ?a tr] =>
      destruct (runCommand_shape exec swechaindCmd a tr)
        as (events & Htr & Hruns & Hst & _);
      destruct (runCommand exec swechaindCmd a tr) as [[output|err] tr1]
    end; cbn [snd ret] in *; subst tr1; exists events; now repeat split.
Qed.

(** X9. [open-auction] starts no process unless the issue and the
    description are given and the sender is a valid address; it then runs
    the transaction, one to three times and nothing else, with the status
    [open] when none is given. *)
Theorem openAuctionHandler_spec (params : OpenAuctionParams) (tr : Trace) :
  let issue := Go.TrimSpace (OpenAuction_Issue params) in
  let description := Go.TrimSpace (OpenAuction_Description params) in
  let from := Go.TrimSpace (OpenAuction_From params) in
  let status := Go.TrimSpace (OpenAuction_Status params) in
  let winner := Go.TrimSpace (OpenAuction_Winner params) in
  (issue = "" \/ description = "" \/ isValidCosmosAddress from = false ->
   exists msg, openAuctionHandler exec swechaindCmd params tr = ("Error: " ++ msg, tr))
  /\ (issue <> "" -> description <> "" -> isValidCosmosAddress from = true ->
      exists events,
        snd (openAuctionHandler exec swechaindCmd params tr) = (tr ++ events)%list
        /\ runsOnly swechaindCmd
             (["tx"; "issuemarket"; "create-auction"; issue; description;
               if String.eqb status "" then "open" else status; winner]
              ++ txFlags from)
             events
        /\ (1 <= started events <= 3)%nat).
Proof.
  intros issue description from status winner. unfold openAuctionHandler.
  fold issue description from status winner. split.
  - intros H.
    destruct (String.eqb_spec issue ""); [eexists; reflexivity|].
    destruct (String.eqb_spec description ""); [eexists; reflexivity|].
    destruct (String.eqb_spec from ""); [eexists; reflexivity|].
    destruct (isValidCosmosAddress from); [|eexists; reflexivity].
    destruct H as [H|[H|H]]; congruence.
  - intros Hissue Hdescription Hfrom.
    destruct (String.eqb_spec issue ""); [contradiction|].
    destruct (String.eqb_spec description ""); [contradiction|].
    destruct (String.eqb_spec from "") as [E|_];
      [now apply valid_nonempty in Hfrom|].
    rewrite Hfrom. cbn [negb]. unfold bind.
    match goal with |- context [runCommand exec swechaindCmd ?a tr] =>
      destruct (runCommand_shape exec swechaindCmd a tr)
        as (events & Htr & Hruns & Hst & _);
      destruct (runCommand exec swechaindCmd a tr) as [[output|err] tr1]
    end; cbn [snd ret] in *; subst tr1; exists events; now repeat split.
Qed.

(** X10. [pay] starts no process unless both addresses are valid and the
    amount is given; it then runs the transfer, one to three times and
    nothing else. *)
Theorem payHandler_spec (params : PayParams) (tr : Trace) :
  let from := Go.TrimSpace (Pay_From params) in
  let to := Go.TrimSpace (Pay_To params) in
  let amount := Go.TrimSpace (Pay_Amount params) in
  (isValidCosmosAddress from = false \/ isValidCosmosAddress to = false
   \/ amount = "" ->
   exists msg, payHandler exec swechaindCmd params tr = ("Error: " ++ msg, tr))
  /\ (isValidCosmosAddress from = true -> isValidCosmosAddress to = true ->
      amount <> "" ->
      exists events,
        snd (payHandler exec swechaindCmd params tr) = (tr ++ events)%list
        /\ runsOnly swechaindCmd
             (["tx"; "bank"; "send"; from; to; amount] ++ txFlags from) events
        /\ (1 <= started events <= 3)%nat).
Proof.
  intros from to amount. unfold payHandler. fold from to amount. split.
  - intros H.
    destruct (String.eqb_spec from ""); [eexists; reflexivity|].
    destruct (String.eqb_spec to ""); [eexists; reflexivity|].
    destruct (String.eqb_spec amount ""); [eexists; reflexivity|].
    cbn [orb].
    destruct (isValidCosmosAddress from); [|eexists; reflexivity].
    destruct (isValidCosmosAddress to); [|eexists; reflexivity].
    destruct H as [H|[H|H]]; congruence.
  - intros Hfrom Hto Hamount.
    destruct (String.eqb_spec from "") as [E|_];
      [now apply valid_nonempty in Hfrom|].
    destruct (String.eqb_spec to "") as [E|_];
      [now apply valid_nonempty in Hto|].
    destruct (String.eqb_spec amount ""); [contradiction|].
    rewrite Hfrom, Hto. cbn [negb orb]. unfold bind.
    match goal with |- context [runCommand exec swechaindCmd ?a tr] =>
      destruct (runCommand_shape exec swechaindCmd a tr)
        as (events & Htr & Hruns & Hst & _);
      destruct (runCommand exec swechaindCmd a tr) as [[output|err] tr1]
    end; cbn [snd ret] in *; subst tr1; exists events; now repeat split.
Qed.

(** X11. [close-auction] starts no process unless the auction identifier is
    a number, the status is given and the sender is a valid address; it then
    runs the update, one to three times and nothing else, with the issue, the
    description and the winner as they are, empty or not. *)
Theorem closeAuctionHandler_spec (params : CloseAuctionParams) (tr : Trace) :
  let auctionId := Go.TrimSpace (CloseAuction_AuctionId params) in
  let status := Go.TrimSpace (CloseAuction_Status params) in
  let from := Go.TrimSpace (CloseAuction_From params) in
  (snd (Go.Atoi auctionId) <> None \/ status = ""
   \/ isValidCosmosAddress from = false ->
   exists msg,
     closeAuctionHandler exec swechaindCmd params tr = ("Error: " ++ msg, tr))
  /\ (snd (Go.Atoi auctionId) = None -> status <> "" ->
      isValidCosmosAddress from = true ->
      exists events,
        snd (closeAuctionHandler exec swechaindCmd params tr) = (tr ++ events)%list
        /\ runsOnly swechaindCmd
             (["tx"; "issuemarket"; "update-auction"; auctionId;
               Go.TrimSpace (CloseAuction_Issue params);
               Go.TrimSpace (CloseAuction_Description params);
               status;
               Go.TrimSpace (CloseAuction_Winner params)] ++ txFlags from)
             events
        /\ (1 <= started events <= 3)%nat).
Proof.
  intros auctionId status from. unfold closeAuctionHandler.
  fold auctionId status from. split.
  - intros H.
    destruct (String.eqb_spec auctionId ""); [eexists; reflexivity|].
    destruct (String.eqb_spec status ""); [eexists; reflexivity|].
    destruct (String.eqb_spec from ""); [eexists; reflexivity|].
    cbn [orb].
    destruct (isValidCosmosAddress from); [|eexists; reflexivity].
    destruct (snd (Go.Atoi auctionId)); [eexists; reflexivity|].
    destruct H as [H|[H|H]]; congruence.
  - intros Hnum Hstatus Hfrom.
    destruct (String.eqb_spec auctionId "") as [E|_];
      [rewrite E in Hnum; discriminate|].
    destruct (String.eqb_spec status ""); [contradiction|].
    destruct (String.eqb_spec from "") as [E|_];
      [now apply valid_nonempty in Hfrom|].
    rewrite Hfrom, Hnum. cbn [negb orb]. unfold bind.
    match goal with |- context [runCommand exec swechaindCmd ?a tr] =>
      destruct (runCommand_shape exec swechaindCmd a tr)
        as (events & Htr & Hruns & Hst & _);
      destruct (runCommand exec swechaindCmd a tr) as [[output|err] tr1]
    end; cbn [snd ret] in *; subst tr1; exists events; now repeat split.
Qed.

End Transactions.

Lemma createBidHandler_spec_witness :
  (exists msg,
     createBidHandler sourceAccepting "swechaind" rejectedBidParams []
     = ("Error: " ++ msg, []))
  /\ (exists events,
        snd (createBidHandler sourceAccepting "swechaind" bidParams [])
        = ([] ++ events)%list
        /\ runsOnly "swechaind"
             (["tx"; "issuemarket"; "create-bid"; "2"; address40;
               "100token"; "Bid for auction 2"] ++ txFlags address40)
             events
        /\ (1 <= started events <= 3)%nat).
Proof.
  split.
  - apply (createBidHandler_spec sourceAccepting "swechaind" rejectedBidParams []).
    right. right. discriminate.
  - exact (proj2 (createBidHandler_spec sourceAccepting "swechaind" bidParams [])
             eq_refl eq_refl eq_refl).
Defined.

Lemma openAuctionHandler_spec_witness :
  (exists msg,
     openAuctionHandler sourceAccepting "swechaind" (auctionParams "  " "") []
     = ("Error: " ++ msg, []))
  /\ (exists events,
        snd (openAuctionHandler sourceAccepting "swechaind"
               (auctionParams "broken build" "") [])
        = ([] ++ events)%list
        /\ runsOnly "swechaind"
             (["tx"; "issuemarket"; "create-auction"; "broken build";
               "fix the build"; "open"; ""] ++ txFlags address40)
             events
        /\ (1 <= started events <= 3)%nat).
Proof.
  split.
  - apply (openAuctionHandler_spec sourceAccepting "swechaind"
             (auctionParams "  " "") []).
    left. reflexivity.
  - apply (openAuctionHandler_spec sourceAccepting "swechaind"
             (auctionParams "broken build" "") []);
      [discriminate|discriminate|reflexivity].
Defined.

Lemma payHandler_spec_witness :
  (exists msg,
     payHandler sourceAccepting "swechaind" (payParams address38) []
     = ("Error: " ++ msg, []))
  /\ (exists events,
        snd (payHandler sourceAccepting "swechaind" (payParams address40) [])
        = ([] ++ events)%list
        /\ runsOnly "swechaind"
             (["tx"; "bank"; "send"; address40; address40; "10token"]
              ++ txFlags address40)
             events
        /\ (1 <= started events <= 3)%nat).
Proof.
  split.
  - apply (payHandler_spec sourceAccepting "swechaind" (payParams address38) []).
    right. left. reflexivity.
  - apply (payHandler_spec sourceAccepting "swechaind" (payParams address40) []);
      [reflexivity|reflexivity|discriminate].
Defined.

Lemma closeAuctionHandler_spec_witness :
  (exists msg,
     closeAuctionHandler sourceAccepting "swechaind" (closeParams "two") []
     = ("Error: " ++ msg, []))
  /\ (exists events,
        snd (closeAuctionHandler sourceAccepting "swechaind" (closeParams "2") [])
        = ([] ++ events)%list
        /\ runsOnly "swechaind"
             (["tx"; "issuemarket"; "update-auction"; "2"; ""; ""; "closed"; ""]
              ++ txFlags address40)
             events
        /\ (1 <= started events <= 3)%nat).
Proof.
  split.
  - apply (closeAuctionHandler_spec sourceAccepting "swechaind"
             (closeParams "two") []).
    left. discriminate.
  - apply (closeAuctionHandler_spec sourceAccepting "swechaind"
             (closeParams "2") []);
      [reflexivity|discriminate|reflexivity].
Defined.

(** ** Queries *)

Lemma filterBids_spec (auctionIdInt : Z) (bids : list Bid) :
  forall filteredBids,
    filterBids auctionIdInt filteredBids bids
    = (filteredBids ++ filter (fun b => Bid_AuctionID b =? auctionIdInt) bids)%list.
Proof.
  induction bids as [|b rest IH]; intros acc; simpl.
  - now rewrite app_nil_r.
  - destruct (Bid_AuctionID b =? auctionIdInt); rewrite IH; [|reflexivity].
    now rewrite <- app_assoc.
Qed.

Lemma openAuctionsFrom_spec (auctions : list Auction) :
  forall openAuctions,
    openAuctionsFrom openAuctions auctions
    = (openAuctions ++ filter (fun a => isOpen (Auction_Status a)) auctions)%list.
Proof.
  induction auctions as [|a rest IH]; intros acc; simpl.
  - now rewrite app_nil_r.
  - destruct (isOpen (Auction_Status a)); rewrite IH; [|reflexivity].
    now rewrite <- app_assoc.
Qed.

Lemma countOpen_spec (auctions : list Auction) :
  forall openCount,
    countOpen openCount auctions
    = openCount + len (filter (fun a => isOpen (Auction_Status a)) auctions).
Proof.
  unfold len.
  induction auctions as [|a rest IH]; intros n; simpl; [lia|].
  destruct (isOpen (Auction_Status a)); rewrite IH; simpl length; lia.
Qed.

Lemma openDetails (bids : list Bid) (auctions : list Auction) :
  auctionDetailsFrom [] (openAuctionsFrom [] auctions) bids
  = filter isOpenDetail (auctionDetailsFrom [] auctions bids).
Proof.
  rewrite !auctionDetailsFrom_spec, openAuctionsFrom_spec. cbn [app].
  induction auctions as [|a rest IH]; [reflexivity|]. cbn [filter map].
  unfold isOpenDetail at 1. rewrite (auctionDetail_spec a bids).
  cbn [joinedDetail AuctionDetail_Status].
  destruct (isOpen (Auction_Status a)); cbn [map]; rewrite IH;
    [now rewrite auctionDetail_spec|reflexivity].
Qed.

Section Queries.

Variable exec : Trace -> string -> list string -> RunResult.
Variable Unmarshal : string -> result value.
Variable UnmarshalKeys : string -> result (list Key).
Variable swechaindCmd : string.

(** X12. For a numeric identifier [query-bids-for-auction] answers with the
    fetched bids of that auction, in fetch order, and their number; for [all],
    in any case of letters, with all the fetched bids. *)
Theorem queryBidsForAuctionHandler_answers (params : QueryBidsForAuctionParams)
    (tr tr' : Trace) (rawBids : list object) :
  let auctionId := Go.TrimSpace (QueryBids_AuctionId params) in
  fetchPaginatedData exec Unmarshal swechaindCmd "issuemarket" "list-bid" "Bid" tr
  = (rawBids, tr') ->
  (forall n,
     Go.ToLower auctionId <> "all" -> Go.Atoi auctionId = (n, None) ->
     queryBidsForAuctionHandler exec Unmarshal swechaindCmd params tr
     = (Marshalled
          {| BidsResponse_Summary :=
               "Found "
               ++ Go.Itoa (len (filter (fun b => Bid_AuctionID b =? n)
                                  (map parseBid rawBids)))
               ++ " bids for auction " ++ auctionId;
             BidsResponse_Bids :=
               filter (fun b => Bid_AuctionID b =? n) (map parseBid rawBids) |},
        tr'))
  /\ (Go.ToLower auctionId = "all" ->
      queryBidsForAuctionHandler exec Unmarshal swechaindCmd params tr
      = (Marshalled
           {| BidsResponse_Summary :=
                "Found " ++ Go.Itoa (len rawBids)
                ++ " total bids across all auctions";
              BidsResponse_Bids := map parseBid rawBids |},
         tr')).
Proof.
  intros auctionId Hfetch. unfold queryBidsForAuctionHandler.
  fold auctionId. split.
  - intros n Hall Hnum.
    destruct (String.eqb_spec auctionId "") as [E|_];
      [rewrite E in Hnum; discriminate|].
    unfold bind. rewrite Hfetch.
    destruct (String.eqb_spec (Go.ToLower auctionId) "all") as [E|Hne];
      [contradiction|].
    cbn [negb]. rewrite Hnum. unfold bidsResponse, ret.
    destruct (String.eqb_spec (Go.ToLower auctionId) "all"); [contradiction|].
    rewrite filterBids_spec. cbn [app].
    unfold parseBids. now rewrite parseBidsFrom_spec.
  - intros Hall.
    destruct (String.eqb_spec auctionId "") as [E|_];
      [rewrite E in Hall; discriminate|].
    unfold bind. rewrite Hfetch, Hall. cbn [negb String.eqb].
    unfold bidsResponse, ret. rewrite Hall.
    unfold parseBids. rewrite parseBidsFrom_spec. cbn [app String.eqb].
    unfold len. now rewrite length_map.
Qed.

(** X13. [query-open-auctions] lists exactly the auctions that
    [query-all-auctions] lists with an open status, in the same order and with
    the same bids and participants; both run the same queries. *)
Theorem queryOpenAuctionsHandler_sublist (p1 p2 : OperationParams) (tr : Trace) :
  exists all open tr',
    queryAllAuctionsHandler exec Unmarshal swechaindCmd p1 tr
    = (Marshalled all, tr')
    /\ queryOpenAuctionsHandler exec Unmarshal swechaindCmd p2 tr
       = (Marshalled open, tr')
    /\ AuctionSummary_Auctions open
       = filter isOpenDetail (AuctionSummary_Auctions all)
    /\ AuctionSummary_Participants open = AuctionSummary_Participants all.
Proof.
  unfold queryAllAuctionsHandler, queryOpenAuctionsHandler, bind, ret.
  destruct (fetchPaginatedData exec Unmarshal swechaindCmd "issuemarket"
              "list-auction" "Auction" tr) as [rawAuctions tr1].
  destruct (fetchPaginatedData exec Unmarshal swechaindCmd "issuemarket"
              "list-bid" "Bid" tr1) as [rawBids tr2].
  destruct (fetchDenomOwners exec Unmarshal swechaindCmd tr2) as [owners tr3].
  eexists. eexists. exists tr3.
  split; [reflexivity|]. split; [reflexivity|].
  split; [|reflexivity].
  unfold buildAuctionSummaryResponse. cbn [AuctionSummary_Auctions].
  apply openDetails.
Qed.

(** X14. The counts of [get-blockchain-status] are those of the listings
    made from the same state: as many auctions as [query-all-auctions] lists,
    as many open ones as [query-open-auctions] lists, and never more open
    ones than auctions. *)
Theorem getBlockchainStatusHandler_counts (p1 p2 p3 : OperationParams)
    (tr : Trace) :
  exists status all open tr1 tr2,
    getBlockchainStatusHandler exec Unmarshal UnmarshalKeys swechaindCmd p1 tr
    = (Marshalled status, tr1)
    /\ queryAllAuctionsHandler exec Unmarshal swechaindCmd p2 tr
       = (Marshalled all, tr2)
    /\ queryOpenAuctionsHandler exec Unmarshal swechaindCmd p3 tr
       = (Marshalled open, tr2)
    /\ Status_TotalAuctions status = len (AuctionSummary_Auctions all)
    /\ Status_OpenAuctions status = len (AuctionSummary_Auctions open)
    /\ Status_TokenHolders status = len (AuctionSummary_Participants all)
    /\ 0 <= Status_OpenAuctions status <= Status_TotalAuctions status.
Proof.
  unfold getBlockchainStatusHandler, queryAllAuctionsHandler,
    queryOpenAuctionsHandler, bind, ret.
  destruct (fetchPaginatedData exec Unmarshal swechaindCmd "issuemarket"
              "list-auction" "Auction" tr) as [rawAuctions t1].
  destruct (fetchPaginatedData exec Unmarshal swechaindCmd "issuemarket"
              "list-bid" "Bid" t1) as [rawBids t2].
  destruct (fetchDenomOwners exec Unmarshal swechaindCmd t2) as [owners t3].
  destruct (getKeys exec UnmarshalKeys swechaindCmd t3) as [keys t4].
  eexists. eexists. eexists. exists t4, t3.
  split; [reflexivity|]. split; [reflexivity|]. split; [reflexivity|].
  unfold buildAuctionSummaryResponse.
  cbn [Status_TotalAuctions Status_OpenAuctions Status_TokenHolders
       AuctionSummary_Auctions AuctionSummary_Participants].
  rewrite !auctionDetailsFrom_spec, participantsFrom_spec, countOpen_spec,
    openAuctionsFrom_spec.
  cbn [app]. unfold len. rewrite !length_map.
  pose proof (filter_length_le (fun a => isOpen (Auction_Status a))
                (parseAuctions rawAuctions)).
  repeat split; lia.
Qed.

Lemma fetchDenomOwners_unreachable (tr : Trace) :
  unreachable exec ->
  exists tr', fetchDenomOwners exec Unmarshal swechaindCmd tr = ([], tr').
Proof.
  intros Hdead. unfold fetchDenomOwners, bind.
  match goal with |- context [runCommand exec swechaindCmd ?a tr] =>
    destruct (runCommand_unreachable exec swechaindCmd a tr Hdead)
      as (e & tr' & ->)
  end.
  exists tr'. reflexivity.
Qed.

Lemma getKeys_unreachable (tr : Trace) :
  unreachable exec ->
  exists tr', getKeys exec UnmarshalKeys swechaindCmd tr = ([], tr').
Proof.
  intros Hdead. unfold getKeys, bind.
  match goal with |- context [runCommand exec swechaindCmd ?a tr] =>
    destruct (runCommand_unreachable exec swechaindCmd a tr Hdead)
      as (e & tr' & ->)
  end.
  exists tr'. reflexivity.
Qed.

(** X15. With the node out of reach the queries still answer, with
    nothing: no open auction, no auction and no bid, no key, and a status of
    zeros. *)
Theorem queries_unreachable (params : OperationParams) (tr : Trace) :
  unreachable exec ->
  (exists tr',
     queryOpenAuctionsHandler exec Unmarshal swechaindCmd params tr
     = (Marshalled {| AuctionSummary_Summary := "No open auctions found.";
                      AuctionSummary_Auctions := [];
                      AuctionSummary_Participants := [] |},
        tr'))
  /\ (exists tr',
        queryAllAuctionsHandler exec Unmarshal swechaindCmd params tr
        = (Marshalled
             {| AuctionSummary_Summary :=
                  "There are 0 total auctions with 0 total bids.";
                AuctionSummary_Auctions := [];
                AuctionSummary_Participants := [] |},
           tr'))
  /\ (exists tr',
        getKeysHandler exec UnmarshalKeys swechaindCmd params tr
        = (Marshalled {| KeySummary_Summary := "Found 0 keys in the keyring";
                         KeySummary_Keys := [] |},
           tr'))
  /\ (exists tr',
        getBlockchainStatusHandler exec Unmarshal UnmarshalKeys swechaindCmd
          params tr
        = (Marshalled
             {| Status_Summary :=
                  "Blockchain has 0 total auctions (0 open), 0 bids, 0 keys, and 0 token holders";
                Status_TotalAuctions := 0; Status_OpenAuctions := 0;
                Status_TotalBids := 0; Status_TotalKeys := 0;
                Status_TokenHolders := 0 |},
           tr')).
Proof.
  intros Hdead.
  destruct (fetchPaginatedData_unreachable exec Unmarshal swechaindCmd
              "issuemarket" "list-auction" "Auction" tr Hdead) as [t1 H1].
  destruct (fetchPaginatedData_unreachable exec Unmarshal swechaindCmd
              "issuemarket" "list-bid" "Bid" t1 Hdead) as [t2 H2].
  destruct (fetchDenomOwners_unreachable t2 Hdead) as [t3 H3].
  destruct (getKeys_unreachable t3 Hdead) as [t4 H4].
  destruct (getKeys_unreachable tr Hdead) as [t5 H5].
  repeat split.
  - exists t3. unfold queryOpenAuctionsHandler, bind. now rewrite H1, H2, H3.
  - exists t3. unfold queryAllAuctionsHandler, bind. now rewrite H1, H2, H3.
  - exists t5. unfold getKeysHandler, bind. now rewrite H5.
  - exists t4. unfold getBlockchainStatusHandler, bind.
    now rewrite H1, H2, H3, H4.
Qed.

Lemma getAddressForKey_Ok (keyName address : string) (tr tr' : Trace) :
  getAddressForKey exec Unmarshal swechaindCmd keyName tr = (Ok address, tr') ->
  isValidCosmosAddress address = true.
Proof.
  unfold getAddressForKey, bind.
  destruct (runCommand _ _ _ tr) as [[output|e] tr1]; [|discriminate].
  destruct (unmarshalObject Unmarshal output) as [keyData|e]; [|discriminate].
  destruct (asString (index keyData "address")) as [a|]; [|discriminate].
  destruct (isValidCosmosAddress a) eqn:E; [|discriminate].
  cbn [negb ret]. intros H. injection H as <- _. exact E.
Qed.

(** X16. [get-address-for-key] starts no process for an empty key name, and
    the address of an answer it gives is a valid one, for the trimmed key
    name. *)
Theorem getAddressForKeyHandler_spec (params : GetAddressForKeyParams)
    (tr : Trace) :
  let keyName := Go.TrimSpace (GetAddressForKey_KeyName params) in
  (keyName = "" ->
   getAddressForKeyHandler exec Unmarshal swechaindCmd params tr
   = (Text "Error: keyName parameter is required and cannot be empty.", tr))
  /\ (forall response tr',
        getAddressForKeyHandler exec Unmarshal swechaindCmd params tr
        = (Marshalled response, tr') ->
        isValidCosmosAddress (AddressResponse_Address response) = true
        /\ AddressResponse_KeyName response = keyName
        /\ AddressResponse_Summary response
           = "Address for key '" ++ keyName ++ "': "
             ++ AddressResponse_Address response).
Proof.
  intros keyName. unfold getAddressForKeyHandler. fold keyName. split.
  - intros ->. reflexivity.
  - intros response tr'.
    destruct (String.eqb keyName ""); [discriminate|].
    unfold bind.
    destruct (getAddressForKey exec Unmarshal swechaindCmd keyName tr)
      as [[address|e] tr1] eqn:E; [|discriminate].
    cbn [ret]. intros H. injection H as <- _.
    cbn [AddressResponse_Address AddressResponse_KeyName AddressResponse_Summary].
    split; [|split; reflexivity].
    exact (getAddressForKey_Ok _ _ _ _ E).
Qed.

(** X17. [get-balance] starts no process for an address that is not valid,
    and reports a failed query as a text. *)
Theorem getBalanceHandler_rejects (params : GetBalanceParams) (tr : Trace) :
  let address := Go.TrimSpace (GetBalance_Address params) in
  (isValidCosmosAddress address = false ->
   exists msg,
     getBalanceHandler exec Unmarshal swechaindCmd params tr
     = (Text ("Error: " ++ msg), tr))
  /\ (forall err tr',
        isValidCosmosAddress address = true ->
        getBalanceForAddress exec Unmarshal swechaindCmd address tr
        = (Err err, tr') ->
        getBalanceHandler exec Unmarshal swechaindCmd params tr
        = (Text ("Error getting balance for address " ++ address ++ ": " ++ err),
           tr')).
Proof.
  intros address. unfold getBalanceHandler. fold address. split.
  - intros Hinvalid.
    destruct (String.eqb address ""); [eexists; reflexivity|].
    rewrite Hinvalid. eexists. reflexivity.
  - intros err tr' Hvalid Hget.
    destruct (String.eqb_spec address "") as [E|_];
      [now apply valid_nonempty in Hvalid|].
    rewrite Hvalid. cbn [negb]. unfold bind. now rewrite Hget.
Qed.

End Queries.

Lemma queryBidsForAuctionHandler_answers_witness :
  fst (queryBidsForAuctionHandler sampleNode sampleUnmarshal2 "swechaind"
         {| QueryBids_AuctionId := "2" |} [])
  = Marshalled {| BidsResponse_Summary := "Found 2 bids for auction 2";
                  BidsResponse_Bids := [sampleBid 2 "6token"; sampleBid 2 "8token"] |}
  /\ exists bids,
       fst (queryBidsForAuctionHandler sampleNode sampleUnmarshal2 "swechaind"
              {| QueryBids_AuctionId := " All " |} [])
       = Marshalled {| BidsResponse_Summary := "Found 7 total bids across all auctions";
                       BidsResponse_Bids := bids |}.
Proof.
  destruct (fetchPaginatedData sampleNode sampleUnmarshal2 "swechaind"
              "issuemarket" "list-bid" "Bid" []) as [rawBids tr'] eqn:E.
  split.
  - destruct (queryBidsForAuctionHandler_answers sampleNode sampleUnmarshal2
                "swechaind" {| QueryBids_AuctionId := "2" |} [] tr' rawBids E)
      as [H _].
    rewrite (H 2); [|discriminate|reflexivity].
    vm_compute in E. injection E as <- _. reflexivity.
  - destruct (queryBidsForAuctionHandler_answers sampleNode sampleUnmarshal2
                "swechaind" {| QueryBids_AuctionId := " All " |} [] tr' rawBids E)
      as [_ H].
    rewrite H; [|reflexivity].
    vm_compute in E. injection E as <- _. eexists. reflexivity.
Defined.

Example queryOpenAuctionsHandler_sample :
  exists response,
    fst (queryOpenAuctionsHandler sampleNode sampleUnmarshal2 "swechaind"
           {| Operation := "list" |} [])
    = Marshalled response
    /\ AuctionSummary_Summary response
       = "There are 2 open auctions (2 with bids, 0 without bids)."
    /\ map AuctionDetail_AuctionID (AuctionSummary_Auctions response) = [1; 3]
    /\ map AuctionDetail_CurrentBidAmount (AuctionSummary_Auctions response)
       = ["3token"; "2token"]
    /\ map ParticipantDetail_Name (AuctionSummary_Participants response)
       = ["abcde"].
Proof. eexists. split; [vm_compute; reflexivity|]. repeat split. Qed.

Lemma queries_unreachable_witness :
  fst (queryOpenAuctionsHandler (replay [] refused) sampleUnmarshal "swechaind"
         {| Operation := "list" |} [])
  = Marshalled {| AuctionSummary_Summary := "No open auctions found.";
                  AuctionSummary_Auctions := [];
                  AuctionSummary_Participants := [] |}
  /\ started
       (snd (queryOpenAuctionsHandler (replay [] refused) sampleUnmarshal
               "swechaind" {| Operation := "list" |} []))
     = 9%nat.
Proof.
  assert (Hdead : unreachable (replay [] refused)).
  { intros tr name arg. exists "exit status 1", "", "connection refused".
    apply replay_final. }
  destruct (queries_unreachable (replay [] refused) sampleUnmarshal
              sampleUnmarshalKeys "swechaind" {| Operation := "list" |} [] Hdead)
    as ([tr' H] & _).
  split; [now rewrite H|]. vm_compute. reflexivity.
Defined.

Lemma getAddressForKeyHandler_spec_witness :
  getAddressForKeyHandler sampleNode sampleUnmarshal2 "swechaind"
    {| GetAddressForKey_KeyName := "  " |} []
  = (Text "Error: keyName parameter is required and cannot be empty.", [])
  /\ isValidCosmosAddress address40 = true.
Proof.
  destruct (getAddressForKeyHandler_spec sampleNode sampleUnmarshal2 "swechaind"
              {| GetAddressForKey_KeyName := "  " |} []) as [Hempty _].
  destruct (getAddressForKeyHandler_spec sampleNode sampleUnmarshal2 "swechaind"
              {| GetAddressForKey_KeyName := " alice " |} []) as [_ Hanswer].
  split; [apply Hempty; reflexivity|].
  apply (Hanswer
           {| AddressResponse_Summary :=
                "Address for key 'alice': " ++ address40;
              AddressResponse_KeyName := "alice";
              AddressResponse_Address := address40 |}
           [Started "swechaind"
              ["keys"; "show"; "alice"; "--keyring-backend"; "test"; "--output";
               "json"]]).
  reflexivity.
Defined.

Lemma getBalanceHandler_rejects_witness :
  (exists msg,
     getBalanceHandler sourceBalances sampleUnmarshal "swechaind"
       {| GetBalance_Address := address38 |} []
     = (Text ("Error: " ++ msg), []))
  /\ fst (getBalanceHandler sourceGarbage sampleUnmarshal "swechaind"
            {| GetBalance_Address := address40 |} [])
     = Text ("Error getting balance for address " ++ address40
             ++ ": failed to parse balance data: invalid character 'o' in literal null (expecting 'u')").
Proof.
  split.
  - apply (getBalanceHandler_rejects sourceBalances sampleUnmarshal "swechaind"
             {| GetBalance_Address := address38 |} []).
    reflexivity.
  - destruct (getBalanceHandler_rejects sourceGarbage sampleUnmarshal "swechaind"
                {| GetBalance_Address := address40 |} []) as [_ H].
    rewrite (H "failed to parse balance data: invalid character 'o' in literal null (expecting 'u')"
               [Started "swechaind"
                  ["query"; "bank"; "balances"; address40; "--keyring-backend";
                   "test"; "--output"; "json"]]);
      reflexivity.
Defined.

(** ** Trimming and validation *)

Lemma trimLeft_length_upto (n : nat) :
  forall s,
    (String.length s <= n)%nat ->
    (String.length (Go.trimLeft s) <= String.length s)%nat.
Proof.
  induction n as [|n IH]; intros s H.
  - destruct s; cbn [String.length Go.trimLeft] in *; lia.
  - destruct s as [|a r1]; [cbn [String.length Go.trimLeft]; lia|].
    cbn [String.length] in H.
    assert (H1 : (String.length (Go.trimLeft r1) <= String.length r1)%nat)
      by (apply IH; lia).
    destruct r1 as [|b r2].
    { cbn [Go.trimLeft]. destruct (Go.asciiSpace a); cbn [String.length]; lia. }
    cbn [String.length] in H.
    assert (H2 : (String.length (Go.trimLeft r2) <= String.length r2)%nat)
      by (apply IH; lia).
    destruct r2 as [|c r3].
    { change (Go.trimLeft (String a (String b "")))
        with (if Go.asciiSpace a then Go.trimLeft (String b "")
              else if Go.space2 a b then Go.trimLeft ""
                   else String a (String b "")).
      destruct (Go.asciiSpace a); [cbn [String.length] in *; lia|].
      destruct (Go.space2 a b); cbn [String.length Go.trimLeft]; lia. }
    cbn [String.length] in H.
    assert (H3 : (String.length (Go.trimLeft r3) <= String.length r3)%nat)
      by (apply IH; lia).
    change (Go.trimLeft (String a (String b (String c r3))))
      with (if Go.asciiSpace a then Go.trimLeft (String b (String c r3))
            else if Go.space2 a b then Go.trimLeft (String c r3)
                 else if Go.space3 a b c then Go.trimLeft r3
                      else String a (String b (String c r3))).
    destruct (Go.asciiSpace a); [cbn [String.length] in *; lia|].
    destruct (Go.space2 a b); [cbn [String.length] in *; lia|].
    destruct (Go.space3 a b c); cbn [String.length] in *; lia.
Qed.

Lemma trimLeft_length (s : string) :
  (String.length (Go.trimLeft s) <= String.length s)%nat.
Proof. now apply (trimLeft_length_upto (String.length s)). Qed.

Lemma trimLeft_fixed (s : string) : Go.trimLeft s = s <-> headClean s.
Proof.
  split.
  - intros H. destruct s as [|a [|b [|c r3]]]; cbn [headClean]; [exact I| | |].
    + cbn [Go.trimLeft] in H. destruct (Go.asciiSpace a); [discriminate|tauto].
    + cbn [Go.trimLeft] in H. destruct (Go.asciiSpace a).
      * pose proof (trimLeft_length (String b "")) as Hl.
        cbn [Go.trimLeft] in Hl. rewrite H in Hl. simpl in Hl. lia.
      * destruct (Go.space2 a b); [discriminate|tauto].
    + cbn [Go.trimLeft] in H. destruct (Go.asciiSpace a).
      * pose proof (trimLeft_length (String b (String c r3))) as Hl.
        cbn [Go.trimLeft] in Hl. rewrite H in Hl. simpl in Hl. lia.
      * destruct (Go.space2 a b).
        -- pose proof (trimLeft_length (String c r3)) as Hl.
           cbn [Go.trimLeft] in Hl. rewrite H in Hl. simpl in Hl. lia.
        -- destruct (Go.space3 a b c); [|tauto].
           pose proof (trimLeft_length r3) as Hl.
           rewrite H in Hl. simpl in Hl. lia.
  - intros H. destruct s as [|a [|b [|c r3]]]; cbn [headClean] in H;
      cbn [Go.trimLeft]; [reflexivity| | |].
    + destruct H as [-> _]. reflexivity.
    + destruct H as [-> [-> _]]. reflexivity.
    + destruct H as [-> [-> ->]]. reflexivity.
Qed.

Lemma trimLeft_clean (s : string) : headClean (Go.trimLeft s).
Proof.
  remember (String.length s) as n eqn:Hn.
  assert (H : (String.length s <= n)%nat) by lia. clear Hn.
  revert s H. induction n as [|n IH]; intros s H.
  - destruct s; [exact I|simpl in H; lia].
  - destruct s as [|a [|b [|c r3]]]; cbn [Go.trimLeft]; [exact I| | |].
    + destruct (Go.asciiSpace a) eqn:Ea; [exact I|]. cbn [headClean]. tauto.
    + destruct (Go.asciiSpace a) eqn:Ea.
      * apply (IH (String b "")). simpl in *. lia.
      * destruct (Go.space2 a b) eqn:Eb; [exact I|]. cbn [headClean]. tauto.
    + cbn [String.length] in H.
      destruct (Go.asciiSpace a) eqn:Ea.
      * apply (IH (String b (String c r3))). cbn [String.length]. lia.
      * destruct (Go.space2 a b) eqn:Eb.
        -- apply (IH (String c r3)). cbn [String.length]. lia.
        -- destruct (Go.space3 a b c) eqn:Ec.
           ++ apply IH. lia.
           ++ cbn [headClean]. tauto.
Qed.

Lemma headClean_prefix (p w : string) : headClean (p ++ w) -> headClean p.
Proof.
  destruct p as [|a [|b [|c r3]]]; cbn [String.append headClean]; tauto.
Qed.

Lemma trimLeftRev_suffix (s : string) : exists u, s = u ++ Go.trimLeftRev s.
Proof.
  remember (String.length s) as n eqn:Hn.
  assert (H : (String.length s <= n)%nat) by lia. clear Hn.
  revert s H. induction n as [|n IH]; intros s H.
  - destruct s; [exists ""; reflexivity|simpl in H; lia].
  - destruct s as [|a [|b [|c r3]]]; cbn [Go.trimLeftRev].
    + exists "". reflexivity.
    + destruct (Go.asciiSpace a); [exists (String a "")|exists ""]; reflexivity.
    + destruct (Go.asciiSpace a).
      * destruct (IH (String b "")) as [u Hu]; [simpl in *; lia|].
        exists (String a u). cbn [String.append]. apply f_equal. exact Hu.
      * destruct (Go.space2 b a);
          [exists (String a (String b ""))|exists ""]; reflexivity.
    + cbn [String.length] in H.
      destruct (Go.asciiSpace a).
      * destruct (IH (String b (String c r3))) as [u Hu];
          [cbn [String.length]; lia|].
        exists (String a u). cbn [String.append]. apply f_equal. exact Hu.
      * destruct (Go.space2 b a).
        -- destruct (IH (String c r3)) as [u Hu]; [cbn [String.length]; lia|].
           exists (String a (String b u)). cbn [String.append].
           do 2 apply f_equal. exact Hu.
        -- destruct (Go.space3 c b a).
           ++ destruct (IH r3) as [u Hu]; [lia|].
              exists (String a (String b (String c u))). cbn [String.append].
              do 3 apply f_equal. exact Hu.
           ++ exists "". reflexivity.
Qed.

Lemma trimLeftRev_idempotent (s : string) :
  Go.trimLeftRev (Go.trimLeftRev s) = Go.trimLeftRev s.
Proof.
  remember (String.length s) as n eqn:Hn.
  assert (H : (String.length s <= n)%nat) by lia. clear Hn.
  revert s H. induction n as [|n IH]; intros s H.
  - destruct s; [reflexivity|simpl in H; lia].
  - destruct s as [|a [|b [|c r3]]]; [reflexivity| | |].
    + cbn [Go.trimLeftRev]. destruct (Go.asciiSpace a) eqn:Ea; [reflexivity|].
      cbn [Go.trimLeftRev]. now rewrite Ea.
    + cbn [Go.trimLeftRev]. destruct (Go.asciiSpace a) eqn:Ea.
      * apply (IH (String b "")). simpl in *. lia.
      * destruct (Go.space2 b a) eqn:Eb; [reflexivity|].
        cbn [Go.trimLeftRev]. now rewrite Ea, Eb.
    + cbn [String.length] in H. cbn [Go.trimLeftRev].
      destruct (Go.asciiSpace a) eqn:Ea.
      * apply (IH (String b (String c r3))). cbn [String.length]. lia.
      * destruct (Go.space2 b a) eqn:Eb.
        -- apply (IH (String c r3)). cbn [String.length]. lia.
        -- destruct (Go.space3 c b a) eqn:Ec.
           ++ apply IH. lia.
           ++ cbn [Go.trimLeftRev]. now rewrite Ea, Eb, Ec.
Qed.

Lemma append_nil_r (s : string) : s ++ "" = s.
Proof. induction s as [|c s IH]; simpl; [reflexivity|now rewrite IH]. Qed.

Lemma append_assoc (s t u : string) : (s ++ t) ++ u = s ++ (t ++ u).
Proof. induction s as [|c s IH]; simpl; [reflexivity|now rewrite IH]. Qed.

Lemma rev_append (s t : string) : Go.rev (s ++ t) = Go.rev t ++ Go.rev s.
Proof.
  induction s as [|c s IH]; simpl.
  - now rewrite append_nil_r.
  - now rewrite IH, append_assoc.
Qed.

Lemma rev_involutive (s : string) : Go.rev (Go.rev s) = s.
Proof.
  induction s as [|c s IH]; simpl; [reflexivity|].
  now rewrite rev_append, IH.
Qed.

(** Trimming a trimmed text changes nothing. *)
Lemma TrimSpace_idempotent (s : string) :
  Go.TrimSpace (Go.TrimSpace s) = Go.TrimSpace s.
Proof.
  unfold Go.TrimSpace.
  assert (Hleft : Go.trimLeft (Go.trimRight (Go.trimLeft s))
                  = Go.trimRight (Go.trimLeft s)).
  { apply trimLeft_fixed. unfold Go.trimRight.
    destruct (trimLeftRev_suffix (Go.rev (Go.trimLeft s))) as [u Hu].
    apply (headClean_prefix _ (Go.rev u)).
    rewrite <- rev_append, <- Hu, rev_involutive. apply trimLeft_clean. }
  rewrite Hleft. unfold Go.trimRight.
  now rewrite rev_involutive, trimLeftRev_idempotent.
Qed.

(** X18. Validation does not depend on white space around the address, and
    an argument that passed it, trimmed as the handlers hand it to the
    command, itself starts with [cosmos1] and has 39 to 45 bytes. *)
Theorem isValidCosmosAddress_trimmed (s : string) :
  isValidCosmosAddress (Go.TrimSpace s) = isValidCosmosAddress s
  /\ (isValidCosmosAddress (Go.TrimSpace s) = true ->
      (exists rest, Go.TrimSpace s = "cosmos1" ++ rest)
      /\ (39 <= String.length (Go.TrimSpace s) <= 45)%nat).
Proof.
  assert (Heq : isValidCosmosAddress (Go.TrimSpace s) = isValidCosmosAddress s)
    by (unfold isValidCosmosAddress; now rewrite TrimSpace_idempotent).
  split; [exact Heq|].
  rewrite Heq. unfold isValidCosmosAddress. intros H.
  apply andb_true_iff in H as [H H45]. apply andb_true_iff in H as [Hp H39].
  apply HasPrefix_spec in Hp. apply Nat.leb_le in H39, H45. tauto.
Qed.

Lemma isValidCosmosAddress_trimmed_witness :
  exists rest,
    Go.TrimSpace ("  " ++ address40 ++ nl) = "cosmos1" ++ rest
    /\ String.length (Go.TrimSpace ("  " ++ address40 ++ nl)) = 40%nat.
Proof.
  destruct (isValidCosmosAddress_trimmed ("  " ++ address40 ++ nl))
    as [_ H].
  destruct (H eq_refl) as [[rest Hrest] _].
  exists rest. split; [exact Hrest|reflexivity].
Defined.

(** ** More on the parsers and the fetches *)

Lemma index_missing (key : string) (raw : object) :
  missing key raw -> index raw key = JNull.
Proof.
  unfold missing. induction raw as [|[k v] raw IH]; intros H; [reflexivity|].
  cbn [index]. destruct (String.eqb_spec k key) as [->|_].
  - elim (H v). now left.
  - apply IH. intros v' Hin. apply (H v'). now right.
Qed.

(** X19. A field the raw record lacks is shown as the text [<nil>], every
    field of an auction and of a bid, and a record without an identifier gets
    the identifier 0. *)
Theorem parse_missing_fields (raw : object) :
  (missing "id" raw -> Auction_ID (parseAuction raw) = 0)
  /\ (missing "issue" raw -> Auction_Issue (parseAuction raw) = "<nil>")
  /\ (missing "description" raw ->
      Auction_Description (parseAuction raw) = "<nil>")
  /\ (missing "status" raw -> Auction_Status (parseAuction raw) = "<nil>")
  /\ (missing "winner" raw -> Auction_Winner (parseAuction raw) = "<nil>")
  /\ (missing "creator" raw -> Auction_Creator (parseAuction raw) = "<nil>")
  /\ (missing "auctionId" raw -> Bid_AuctionID (parseBid raw) = 0)
  /\ (missing "amount" raw -> Bid_Amount (parseBid raw) = "<nil>")
  /\ (missing "description" raw -> Bid_Description (parseBid raw) = "<nil>")
  /\ (missing "creator" raw -> Bid_Creator (parseBid raw) = "<nil>")
  /\ (missing "bidder" raw -> Bid_Bidder (parseBid raw) = "<nil>").
Proof.
  unfold parseAuction, parseBid.
  cbn [Auction_ID Auction_Issue Auction_Description Auction_Status
       Auction_Winner Auction_Creator Bid_AuctionID Bid_Amount Bid_Description
       Bid_Creator Bid_Bidder].
  repeat split; intros H; rewrite (index_missing _ _ H); reflexivity.
Qed.

Lemma parse_missing_fields_witness :
  (Auction_ID (parseAuction [("issue", JString "issue")]) = 0
   /\ Auction_Description (parseAuction [("issue", JString "issue")]) = "<nil>"
   /\ Auction_Status (parseAuction [("issue", JString "issue")]) = "<nil>"
   /\ Auction_Winner (parseAuction [("issue", JString "issue")]) = "<nil>"
   /\ Auction_Creator (parseAuction [("issue", JString "issue")]) = "<nil>")
  /\ (Bid_Amount (parseBid [("auctionId", JString "2")]) = "<nil>"
      /\ Bid_Description (parseBid [("auctionId", JString "2")]) = "<nil>"
      /\ Bid_Creator (parseBid [("auctionId", JString "2")]) = "<nil>"
      /\ Bid_Bidder (parseBid [("auctionId", JString "2")]) = "<nil>").
Proof.
  destruct (parse_missing_fields [("issue", JString "issue")])
    as (Hid & _ & Hdescription & Hstatus & Hwinner & Hcreator & _).
  destruct (parse_missing_fields [("auctionId", JString "2")])
    as (_ & _ & _ & _ & _ & _ & _ & Hamount & Hbdescription & Hbcreator
        & Hbidder).
  assert (Ha : forall key,
            key <> "issue" -> missing key [("issue", JString "issue")]).
  { intros key Hne x [H|[]]. injection H as H _. congruence. }
  assert (Hb : forall key,
            key <> "auctionId" -> missing key [("auctionId", JString "2")]).
  { intros key Hne x [H|[]]. injection H as H _. congruence. }
  split.
  - split; [apply Hid, Ha; discriminate|].
    split; [apply Hdescription, Ha; discriminate|].
    split; [apply Hstatus, Ha; discriminate|].
    split; [apply Hwinner, Ha; discriminate|].
    apply Hcreator, Ha; discriminate.
  - split; [apply Hamount, Hb; discriminate|].
    split; [apply Hbdescription, Hb; discriminate|].
    split; [apply Hbcreator, Hb; discriminate|].
    apply Hbidder, Hb; discriminate.
Defined.

Section MoreFetches.

Variable exec : Trace -> string -> list string -> RunResult.
Variable Unmarshal : string -> result value.
Variable swechaindCmd : string.

Lemma denomOwnersFrom_spec (rawDenomOwners : list value) :
  forall denomOwners,
    denomOwnersFrom denomOwners rawDenomOwners
    = (denomOwners ++ ownersOf rawDenomOwners)%list.
Proof.
  induction rawDenomOwners as [|raw rest IH]; intros acc; cbn [denomOwnersFrom ownersOf].
  - now rewrite app_nil_r.
  - unfold ownerOf. destruct (asObject raw) as [rawMap|]; [|apply IH].
    destruct (asObject (index rawMap "balance")) as [balanceRaw|]; [|apply IH].
    rewrite IH, <- app_assoc. reflexivity.
Qed.

(** X20. From a decoded answer [fetchDenomOwners] returns one token holder
    for each element of [denom_owners] that is an object with an object as
    balance, in order, and passes over the other elements; without an array
    there it returns none. *)
Theorem fetchDenomOwners_spec (output : string) (responseData : object)
    (tr tr' : Trace) :
  runCommand exec swechaindCmd
    ["query"; "bank"; "denom-owners"; "token"; "--keyring-backend"; "test";
     "--output"; "json"] tr
  = (Ok output, tr') ->
  unmarshalObject Unmarshal output = Ok responseData ->
  fetchDenomOwners exec Unmarshal swechaindCmd tr
  = (match asArray (index responseData "denom_owners") with
     | Some rawDenomOwners => ownersOf rawDenomOwners
     | None => []
     end,
     tr').
Proof.
  intros Hrun Hobj. unfold fetchDenomOwners, bind. rewrite Hrun, Hobj.
  destruct (asArray (index responseData "denom_owners")); [|reflexivity].
  now rewrite denomOwnersFrom_spec.
Qed.

Lemma objectsOf_app (p q : list value) :
  objectsOf (p ++ q) = (objectsOf p ++ objectsOf q)%list.
Proof.
  induction p as [|v p IH]; [reflexivity|].
  destruct v; cbn [app objectsOf]; now rewrite ?IH.
Qed.

Lemma pages_repeat (module query dataKey : string) (page : list value) (n : nat) :
  (forall offset tr,
     pageOf Unmarshal dataKey
       (fst (runCommand exec swechaindCmd (pageArgs module query offset) tr))
     = Some page) ->
  forall offset tr,
    exists tr1,
      PagesFrom exec Unmarshal swechaindCmd module query dataKey offset tr
        (repeat page n) tr1.
Proof.
  intros Hpage. induction n as [|n IH]; intros offset tr.
  - exists tr. constructor.
  - specialize (Hpage offset tr).
    destruct (runCommand exec swechaindCmd (pageArgs module query offset) tr)
      as [r tr1] eqn:Hrun.
    cbn [fst] in Hpage.
    destruct (IH (offset + pageLimit) (tr1 ++ [Slept requestDelay])%list)
      as [tr2 H2].
    exists tr2. cbn [repeat]. econstructor; eassumption.
Qed.

(** X21. Pages are not compared with one another: a source that answers the
    query for every offset by the same page has its records returned ten
    times over. *)
Theorem fetchPaginatedData_repeats (module query dataKey : string)
    (page : list value) (tr : Trace) :
  (forall offset tr0,
     pageOf Unmarshal dataKey
       (fst (runCommand exec swechaindCmd (pageArgs module query offset) tr0))
     = Some page) ->
  fst (fetchPaginatedData exec Unmarshal swechaindCmd module query dataKey tr)
  = concat (repeat (objectsOf page) 10).
Proof.
  intros Hpage.
  destruct (pages_repeat module query dataKey page 10 Hpage 0 tr) as [tr1 H].
  rewrite (fetchPaginatedData_full _ _ _ _ _ _ (repeat page 10) tr tr1 H);
    [|apply repeat_length].
  cbn [fst]. rewrite appendObjects_objectsOf. cbn [app repeat concat].
  rewrite !objectsOf_app. reflexivity.
Qed.

End MoreFetches.

Lemma fetchDenomOwners_spec_witness :
  fetchDenomOwners sampleNode sampleUnmarshal2 "swechaind" []
  = ([{| DenomOwner_Address := address40;
         DenomOwner_Balance := {| Balance_Denom := "token"; Balance_Amount := "12" |} |}],
     [Started "swechaind"
        ["query"; "bank"; "denom-owners"; "token"; "--keyring-backend"; "test";
         "--output"; "json"]]).
Proof.
  apply (fetchDenomOwners_spec sampleNode sampleUnmarshal2 "swechaind"
           (renderJson ownersAnswer)
           [("denom_owners",
             JArray [JObject [("address", JString address40);
                              ("balance",
                               JObject [("denom", JString "token");
                                        ("amount", JString "12")])]])]);
    reflexivity.
Defined.

Lemma fetchPaginatedData_repeats_witness :
  fst (fetchPaginatedData sourceSame sampleUnmarshal2 "swechaind" "issuemarket"
         "list-bid" "Bid" [])
  = concat (repeat sevenBids 10).
Proof.
  rewrite (fetchPaginatedData_repeats sourceSame sampleUnmarshal2 "swechaind"
             "issuemarket" "list-bid" "Bid"
             [rawBid "1" "5token"; rawBid "2" "6token"; rawBid "1" "9token";
              rawBid "3" "1token"; rawBid "2" "8token"; rawBid "3" "2token";
              rawBid "1" "3token"] []);
    [reflexivity|].
  intros offset tr0. unfold runCommand. change (Z.to_nat maxRetries) with 3%nat.
  rewrite attempts_S. unfold sourceSame. rewrite replay_final. reflexivity.
Defined.
